(** * Screen-orientation plugin: physical-orientation inference and lock detection

    A shallow embedding of the two native implementations of the
    Capacitor screen-orientation plugin:

    - [Android]: [CapacitorScreenOrientationPlugin.java]
    - [IOS]: the Swift [CapacitorScreenOrientationPlugin] class

    Acceleration samples are IEEE floats in the sources ([float] in Java,
    [Double] in Swift).  The classifiers only negate, take absolute values
    and compare them, all of which are exact on finite floats, so a sample
    is modelled by rational numbers [Q]: every finite float is a rational
    and the comparisons agree.

    The plugin objects are mutable singletons that call into the host
    platform and push events to the JavaScript bridge.  A method is
    embedded as an [Action]: a function from the world (plugin fields and
    the part of the host the plugin talks to) to a return value, the new
    world and the list of bridge events it emitted, in order. *)

From Stdlib Require Import QArith Qabs Lqa ZArith String List Bool Lia.
Import ListNotations.

(** ** Rational comparisons as the sources write them *)

Definition Qgtb (a b : Q) : bool := negb (Qle_bool a b).
Definition Qltb (a b : Q) : bool := negb (Qle_bool b a).

(** ** The bridge: call data, results and events *)

Module Bridge.

Local Open Scope string_scope.

Inductive JSValue : Type :=
| JSBool (b : bool)
| JSString (s : string).

(** A JSObject is a keyed store; [put] replaces the value of a key that is
    already there and appends a new key otherwise. *)
Definition JSObject : Type := list (string * JSValue).

Fixpoint put (k : string) (v : JSValue) (o : JSObject) : JSObject :=
  match o with
  | [] => [(k, v)]
  | (k', v') :: o' =>
      if String.eqb k k' then (k, v) :: o' else (k', v') :: put k v o'
  end.

Fixpoint get (k : string) (o : JSObject) : option JSValue :=
  match o with
  | [] => None
  | (k', v') :: o' => if String.eqb k k' then Some v' else get k o'
  end.

Definition has (k : string) (o : JSObject) : bool :=
  match get k o with Some _ => true | None => false end.

(** [call.getString(key)]: absent, or not a string, gives null. *)
Definition getString (call : JSObject) (key : string) : option string :=
  match get key call with
  | Some (JSString s) => Some s
  | _ => None
  end.

(** [call.getBoolean(key, default)] and Swift's [call.getBool(key) ?? default]. *)
Definition getBoolean (call : JSObject) (key : string) (default : bool) : bool :=
  match get key call with
  | Some (JSBool b) => b
  | _ => default
  end.

(** The outcome delivered to the caller of a plugin method. *)
Inductive CallResult : Type :=
| Resolve (data : JSObject)
| Reject (message : string).

(** [notifyListeners(eventName, data)]. *)
Record Event : Type := mkEvent { eventName : string; data : JSObject }.

(** The label carried by an event, when it has one. *)
Definition payload (e : Event) : option string := getString (data e) "type".

End Bridge.
Import Bridge.

(** ** Actions: state passing with an event log *)

Section Actions.

Variable W : Type.

Definition Action (A : Type) : Type := W -> A * W * list Event.

Definition ret {A} (a : A) : Action A := fun w => (a, w, []).

Definition bind {A B} (m : Action A) (k : A -> Action B) : Action B :=
  fun w =>
    let r1 := m w in
    let r2 := k (fst (fst r1)) (snd (fst r1)) in
    (fst (fst r2), snd (fst r2), (snd r1 ++ snd r2)%list).

Definition gets {A} (f : W -> A) : Action A := fun w => (f w, w, []).

Definition modify (f : W -> W) : Action unit := fun w => (tt, f w, []).

Definition notifyListeners (name : string) (d : JSObject) : Action unit :=
  fun w => (tt, w, [mkEvent name d]).

Definition when (b : bool) (m : Action unit) : Action unit :=
  if b then m else ret tt.

Definition value {A} (r : A * W * list Event) : A := fst (fst r).
Definition world {A} (r : A * W * list Event) : W := snd (fst r).
Definition events {A} (r : A * W * list Event) : list Event := snd r.

End Actions.

Arguments ret {W A} a.
Arguments bind {W A B} m k.
Arguments gets {W A} f.
Arguments modify {W} f.
Arguments notifyListeners {W} name d.
Arguments when {W} b m.
Arguments value {W A} r.
Arguments world {W A} r.
Arguments events {W A} r.

Declare Scope action_scope.
Delimit Scope action_scope with action.
Notation "x <- m ;; k" := (bind m (fun x => k))
  (at level 61, m at next level, right associativity) : action_scope.
Notation "m ;; k" := (bind m (fun _ => k))
  (at level 61, right associativity) : action_scope.

(** ** Android: CapacitorScreenOrientationPlugin.java *)

Module Android.

Local Open Scope string_scope.
Local Open Scope action_scope.

(** Android SDK constants the plugin refers to. *)
Definition ORIENTATION_UNDEFINED : Z := 0.
Definition ORIENTATION_PORTRAIT : Z := 1.
Definition ORIENTATION_LANDSCAPE : Z := 2.
Definition ROTATION_0 : Z := 0.
Definition ROTATION_90 : Z := 1.
Definition ROTATION_270 : Z := 3.
Definition TYPE_ACCELEROMETER : Z := 1.
Definition SCREEN_ORIENTATION_UNSPECIFIED : Z := -1.
Definition SCREEN_ORIENTATION_LANDSCAPE : Z := 0.
Definition SCREEN_ORIENTATION_PORTRAIT : Z := 1.
Definition SCREEN_ORIENTATION_NOSENSOR : Z := 5.
Definition SCREEN_ORIENTATION_SENSOR_LANDSCAPE : Z := 6.
Definition SCREEN_ORIENTATION_SENSOR_PORTRAIT : Z := 7.
Definition SCREEN_ORIENTATION_REVERSE_LANDSCAPE : Z := 8.
Definition SCREEN_ORIENTATION_REVERSE_PORTRAIT : Z := 9.

(** The plugin's fields.  [sensorManager] and [accelerometer] are object
    references of which only null-ness matters: [true] is non-null. *)
Record Plugin : Type := mkPlugin {
  currentOrientation : Z;
  sensorManager : bool;
  accelerometer : bool;
  isTrackingMotion : bool;
  currentPhysicalOrientation : string;
  lastNotifiedOrientation : option string
}.

(** What the plugin reads from and writes to the host:
    [getResources().getConfiguration().orientation],
    [getDefaultDisplay().getRotation()], the sensor service, the activity's
    requested orientation, and the number of times the plugin is currently
    registered with the sensor manager. *)
Record Host : Type := mkHost {
  configurationOrientation : Z;
  displayRotation : Z;
  sensorService : bool;
  defaultAccelerometer : bool;
  requestedOrientation : Z;
  setRequestedOrientationThrows : bool;
  sensorListeners : nat
}.

Record World : Type := mkWorld { this : Plugin; host : Host }.

(** Field initialisers of the class. *)
Definition newPlugin : Plugin :=
  mkPlugin 0 false false false "portrait-primary" None.

Definition set_currentOrientation (v : Z) (w : World) : World :=
  let p := this w in
  mkWorld (mkPlugin v (sensorManager p) (accelerometer p) (isTrackingMotion p)
             (currentPhysicalOrientation p) (lastNotifiedOrientation p)) (host w).

Definition set_sensorManager (v : bool) (w : World) : World :=
  let p := this w in
  mkWorld (mkPlugin (currentOrientation p) v (accelerometer p) (isTrackingMotion p)
             (currentPhysicalOrientation p) (lastNotifiedOrientation p)) (host w).

Definition set_accelerometer (v : bool) (w : World) : World :=
  let p := this w in
  mkWorld (mkPlugin (currentOrientation p) (sensorManager p) v (isTrackingMotion p)
             (currentPhysicalOrientation p) (lastNotifiedOrientation p)) (host w).

Definition set_isTrackingMotion (v : bool) (w : World) : World :=
  let p := this w in
  mkWorld (mkPlugin (currentOrientation p) (sensorManager p) (accelerometer p) v
             (currentPhysicalOrientation p) (lastNotifiedOrientation p)) (host w).

Definition set_currentPhysicalOrientation (v : string) (w : World) : World :=
  let p := this w in
  mkWorld (mkPlugin (currentOrientation p) (sensorManager p) (accelerometer p)
             (isTrackingMotion p) v (lastNotifiedOrientation p)) (host w).

Definition set_lastNotifiedOrientation (v : option string) (w : World) : World :=
  let p := this w in
  mkWorld (mkPlugin (currentOrientation p) (sensorManager p) (accelerometer p)
             (isTrackingMotion p) (currentPhysicalOrientation p) v) (host w).

Definition set_requestedOrientation (v : Z) (w : World) : World :=
  let h := host w in
  mkWorld (this w)
    (mkHost (configurationOrientation h) (displayRotation h) (sensorService h)
       (defaultAccelerometer h) v (setRequestedOrientationThrows h)
       (sensorListeners h)).

Definition set_sensorListeners (v : nat) (w : World) : World :=
  let h := host w in
  mkWorld (this w)
    (mkHost (configurationOrientation h) (displayRotation h) (sensorService h)
       (defaultAccelerometer h) (requestedOrientation h)
       (setRequestedOrientationThrows h) v).

(** The host rotates the device: configuration and display rotation change. *)
Definition set_configuration (o r : Z) (w : World) : World :=
  let h := host w in
  mkWorld (this w)
    (mkHost o r (sensorService h) (defaultAccelerometer h)
       (requestedOrientation h) (setRequestedOrientationThrows h)
       (sensorListeners h)).

(** [SensorManager.registerListener(this, ...)] and
    [SensorManager.unregisterListener(this)]. *)
Definition registerListener : Action World unit :=
  modify (fun w => set_sensorListeners (S (sensorListeners (host w))) w).

Definition unregisterListener : Action World unit :=
  modify (set_sensorListeners 0).

(** [getActivity().setRequestedOrientation(c)]; returns [false] when the
    host call throws (the caller's [catch] branch). *)
Definition setRequestedOrientation (c : Z) : Action World bool :=
  fun w =>
    if setRequestedOrientationThrows (host w) then (false, w, [])
    else (true, set_requestedOrientation c w, []).

(** [String.equals], where the argument may be null. *)
Definition equals (s : string) (o : option string) : bool :=
  match o with
  | Some t => String.eqb s t
  | None => false
  end.

Definition load : Action World unit :=
  o <- gets (fun w => configurationOrientation (host w)) ;;
  modify (set_currentOrientation o) ;;
  sm <- gets (fun w => sensorService (host w)) ;;
  modify (set_sensorManager sm) ;;
  if sm then
    acc <- gets (fun w => defaultAccelerometer (host w)) ;;
    modify (set_accelerometer acc)
  else ret tt.

Definition getCurrentOrientationType : Action World string :=
  rotation <- gets (fun w => displayRotation (host w)) ;;
  orientation <- gets (fun w => configurationOrientation (host w)) ;;
  ret (if (orientation =? ORIENTATION_PORTRAIT)%Z then
         if (rotation =? ROTATION_0)%Z then "portrait-primary"
         else "portrait-secondary"
       else
         if (rotation =? ROTATION_90)%Z then "landscape-primary"
         else "landscape-secondary").

Definition notifyOrientationChange : Action World unit :=
  t <- getCurrentOrientationType ;;
  notifyListeners "screenOrientationChange" (put "type" (JSString t) []).

Definition handleOnConfigurationChanged (newConfig_orientation : Z)
  : Action World unit :=
  tracking <- gets (fun w => isTrackingMotion (this w)) ;;
  if tracking then ret tt
  else
    cur <- gets (fun w => currentOrientation (this w)) ;;
    if negb (cur =? newConfig_orientation)%Z then
      modify (set_currentOrientation newConfig_orientation) ;;
      notifyOrientationChange
    else ret tt.

Definition getOrientationConstant (orientationString : string) : Z :=
  if String.eqb orientationString "any" then SCREEN_ORIENTATION_UNSPECIFIED
  else if String.eqb orientationString "natural" then SCREEN_ORIENTATION_NOSENSOR
  else if String.eqb orientationString "landscape" then SCREEN_ORIENTATION_SENSOR_LANDSCAPE
  else if String.eqb orientationString "portrait" then SCREEN_ORIENTATION_SENSOR_PORTRAIT
  else if String.eqb orientationString "portrait-primary" then SCREEN_ORIENTATION_PORTRAIT
  else if String.eqb orientationString "portrait-secondary" then SCREEN_ORIENTATION_REVERSE_PORTRAIT
  else if String.eqb orientationString "landscape-primary" then SCREEN_ORIENTATION_LANDSCAPE
  else if String.eqb orientationString "landscape-secondary" then SCREEN_ORIENTATION_REVERSE_LANDSCAPE
  else SCREEN_ORIENTATION_UNSPECIFIED.

Definition startMotionTracking : Action World unit :=
  tracking <- gets (fun w => isTrackingMotion (this w)) ;;
  acc <- gets (fun w => accelerometer (this w)) ;;
  if tracking || negb acc then ret tt
  else
    modify (set_isTrackingMotion true) ;;
    registerListener.

Definition stopMotionTracking : Action World unit :=
  tracking <- gets (fun w => isTrackingMotion (this w)) ;;
  if negb tracking then ret tt
  else
    modify (set_isTrackingMotion false) ;;
    sm <- gets (fun w => sensorManager (this w)) ;;
    when sm unregisterListener.

Definition handleOnDestroy : Action World unit := stopMotionTracking.

Definition threshold : Q := 5.

(** The classifier reads the field [currentPhysicalOrientation] for its
    fallback; it is passed here as [current]. *)
Definition determinePhysicalOrientation (current : string) (x y z : Q) : string :=
  if Qgtb (Qabs x) threshold && Qgtb (Qabs x) (Qabs y) then
    if Qgtb x 0 then "landscape-primary" else "landscape-secondary"
  else if Qgtb (Qabs y) threshold then
    if Qgtb y 0 then "portrait-primary" else "portrait-secondary"
  else current.

(** A [SensorEvent]: the type of its sensor and its three values. *)
Record SensorEvent : Type := mkSensorEvent {
  sensorType : Z;
  values0 : Q;
  values1 : Q;
  values2 : Q
}.

Definition onSensorChanged (event : SensorEvent) : Action World unit :=
  if negb (sensorType event =? TYPE_ACCELEROMETER)%Z then ret tt
  else
    let x := values0 event in
    let y := values1 event in
    let z := values2 event in
    cur <- gets (fun w => currentPhysicalOrientation (this w)) ;;
    let newOrientation := determinePhysicalOrientation cur x y z in
    if negb (String.eqb newOrientation cur) then
      modify (set_currentPhysicalOrientation newOrientation) ;;
      last <- gets (fun w => lastNotifiedOrientation (this w)) ;;
      if negb (equals newOrientation last) then
        modify (set_lastNotifiedOrientation (Some newOrientation)) ;;
        notifyListeners "screenOrientationChange"
          (put "type" (JSString newOrientation) [])
      else ret tt
    else ret tt.

Definition orientation : Action World CallResult :=
  t <- getCurrentOrientationType ;;
  ret (Resolve (put "type" (JSString t) [])).

Definition lock (call : JSObject) : Action World CallResult :=
  let orientationString := getString call "orientation" in
  let bypassLock := getBoolean call "bypassOrientationLock" false in
  match orientationString with
  | None => ret (Reject "Orientation parameter is required")
  | Some s =>
      let orientation := getOrientationConstant s in
      ok <- setRequestedOrientation orientation ;;
      if ok then
        when bypassLock startMotionTracking ;;
        ret (Resolve [])
      else ret (Reject "Could not lock orientation")
  end.

Definition unlock : Action World CallResult :=
  stopMotionTracking ;;
  ok <- setRequestedOrientation SCREEN_ORIENTATION_UNSPECIFIED ;;
  if ok then ret (Resolve []) else ret (Reject "Could not unlock orientation").

Definition startOrientationTracking (call : JSObject) : Action World CallResult :=
  let bypassLock := getBoolean call "bypassOrientationLock" false in
  when bypassLock startMotionTracking ;;
  ret (Resolve []).

Definition stopOrientationTracking : Action World CallResult :=
  stopMotionTracking ;;
  ret (Resolve []).

Definition isOrientationLocked : Action World CallResult :=
  uiOrientation <- getCurrentOrientationType ;;
  tracking <- gets (fun w => isTrackingMotion (this w)) ;;
  if tracking then
    phys <- gets (fun w => currentPhysicalOrientation (this w)) ;;
    let locked := negb (String.eqb phys uiOrientation) in
    ret (Resolve (put "uiOrientation" (JSString uiOrientation)
                   (put "physicalOrientation" (JSString phys)
                     (put "locked" (JSBool locked) []))))
  else
    ret (Resolve (put "uiOrientation" (JSString uiOrientation)
                   (put "locked" (JSBool false) []))).

(** Everything that can happen to the plugin: calls through the bridge
    and callbacks from the host.  A configuration change first updates
    the host's configuration and display rotation and then reaches the
    plugin; a sensor event is delivered only while the plugin is
    registered with the sensor manager. *)
Inductive Input : Type :=
| ConfigurationChanged (newOrientation rotation : Z)
| SensorChanged (event : SensorEvent)
| CallOrientation
| CallLock (call : JSObject)
| CallUnlock
| CallStartOrientationTracking (call : JSObject)
| CallStopOrientationTracking
| CallIsOrientationLocked
| Destroy.

Definition discard {A} (m : Action World A) : Action World unit :=
  m ;; ret tt.

Definition step (i : Input) : Action World unit :=
  match i with
  | ConfigurationChanged o r =>
      modify (set_configuration o r) ;; handleOnConfigurationChanged o
  | SensorChanged e =>
      n <- gets (fun w => sensorListeners (host w)) ;;
      if (0 <? n)%nat then onSensorChanged e else ret tt
  | CallOrientation => discard orientation
  | CallLock c => discard (lock c)
  | CallUnlock => discard unlock
  | CallStartOrientationTracking c => discard (startOrientationTracking c)
  | CallStopOrientationTracking => discard stopOrientationTracking
  | CallIsOrientationLocked => discard isOrientationLocked
  | Destroy => handleOnDestroy
  end.

(** Run a list of inputs, collecting the events in order. *)
Fixpoint run (inputs : list Input) (w : World) : World * list Event :=
  match inputs with
  | [] => (w, [])
  | i :: rest =>
      let r := step i w in
      let r' := run rest (world r) in
      (fst r', (events r ++ snd r')%list)
  end.

(** Feed a list of sensor events to [onSensorChanged]. *)
Fixpoint feed (es : list SensorEvent) (w : World) : World * list Event :=
  match es with
  | [] => (w, [])
  | e :: rest =>
      let r := onSensorChanged e w in
      let r' := feed rest (world r) in
      (fst r', (events r ++ snd r')%list)
  end.

(** A freshly constructed plugin on a host, after [load]. *)
Definition boot (h : Host) : World := world (load (mkWorld newPlugin h)).

(** The worlds the plugin can be in: booted on a host with which nothing
    is registered yet, then driven by inputs. *)
Inductive reachable : World -> Prop :=
| reachable_boot h : sensorListeners h = 0%nat -> reachable (boot h)
| reachable_step w i : reachable w -> reachable (world (step i w)).

End Android.

(** ** iOS: the Swift CapacitorScreenOrientationPlugin *)

Module IOS.

Local Open Scope string_scope.
Local Open Scope action_scope.

(** [UIDeviceOrientation]. *)
Module Device.
Inductive t : Type :=
| unknown | portrait | portraitUpsideDown
| landscapeLeft | landscapeRight | faceUp | faceDown.

Definition eqb (a b : t) : bool :=
  match a, b with
  | unknown, unknown | portrait, portrait
  | portraitUpsideDown, portraitUpsideDown
  | landscapeLeft, landscapeLeft | landscapeRight, landscapeRight
  | faceUp, faceUp | faceDown, faceDown => true
  | _, _ => false
  end.

(** The helper extension at the end of the Swift file. *)
Definition isValidInterfaceOrientation (o : t) : bool :=
  match o with
  | portrait | portraitUpsideDown | landscapeLeft | landscapeRight => true
  | _ => false
  end.
End Device.

(** [UIInterfaceOrientation]. *)
Module Interface.
Inductive t : Type :=
| unknown | portrait | portraitUpsideDown | landscapeLeft | landscapeRight.
End Interface.

(** [CMAcceleration]. *)
Record CMAcceleration : Type := mkAcceleration { x : Q; y : Q; z : Q }.

(** The plugin's stored properties; [motionManager] is [true] when it
    holds a manager and [false] when it is nil. *)
Record Plugin : Type := mkPlugin {
  motionManager : bool;
  currentDeviceOrientation : Device.t;
  isTrackingWithMotion : bool;
  lastNotifiedOrientation : option string
}.

(** What the plugin reads from and writes to the host:
    [UIDevice.current.orientation], the first window scene's interface
    orientation (nil when there is no window or scene),
    [isAccelerometerAvailable], and the number of accelerometer-update
    handlers that are currently running. *)
Record Host : Type := mkHost {
  deviceOrientation : Device.t;
  interfaceOrientation : option Interface.t;
  isAccelerometerAvailable : bool;
  accelerometerUpdates : nat
}.

Record World : Type := mkWorld { this : Plugin; host : Host }.

(** Property initialisers of the class. *)
Definition newPlugin : Plugin := mkPlugin false Device.portrait false None.

Definition set_motionManager (v : bool) (w : World) : World :=
  let p := this w in
  mkWorld (mkPlugin v (currentDeviceOrientation p) (isTrackingWithMotion p)
             (lastNotifiedOrientation p)) (host w).

Definition set_currentDeviceOrientation (v : Device.t) (w : World) : World :=
  let p := this w in
  mkWorld (mkPlugin (motionManager p) v (isTrackingWithMotion p)
             (lastNotifiedOrientation p)) (host w).

Definition set_isTrackingWithMotion (v : bool) (w : World) : World :=
  let p := this w in
  mkWorld (mkPlugin (motionManager p) (currentDeviceOrientation p) v
             (lastNotifiedOrientation p)) (host w).

Definition set_lastNotifiedOrientation (v : option string) (w : World) : World :=
  let p := this w in
  mkWorld (mkPlugin (motionManager p) (currentDeviceOrientation p)
             (isTrackingWithMotion p) v) (host w).

Definition set_accelerometerUpdates (v : nat) (w : World) : World :=
  let h := host w in
  mkWorld (this w)
    (mkHost (deviceOrientation h) (interfaceOrientation h)
       (isAccelerometerAvailable h) v).

Definition set_deviceOrientation (v : Device.t) (w : World) : World :=
  let h := host w in
  mkWorld (this w)
    (mkHost v (interfaceOrientation h) (isAccelerometerAvailable h)
       (accelerometerUpdates h)).

Definition set_interfaceOrientation (v : option Interface.t) (w : World) : World :=
  let h := host w in
  mkWorld (this w)
    (mkHost (deviceOrientation h) v (isAccelerometerAvailable h)
       (accelerometerUpdates h)).

(** [motionManager.startAccelerometerUpdates(to:withHandler:)] and
    [motionManager?.stopAccelerometerUpdates()]. *)
Definition startAccelerometerUpdates : Action World unit :=
  modify (fun w => set_accelerometerUpdates (S (accelerometerUpdates (host w))) w).

Definition stopAccelerometerUpdates : Action World unit :=
  modify (set_accelerometerUpdates 0).

(** Swift's [String != String?]. *)
Definition differs (s : string) (o : option string) : bool :=
  match o with
  | Some t => negb (String.eqb s t)
  | None => true
  end.

Definition mapInterfaceOrientationToString (orientation : Interface.t) : string :=
  match orientation with
  | Interface.portrait => "portrait-primary"
  | Interface.portraitUpsideDown => "portrait-secondary"
  | Interface.landscapeLeft => "landscape-primary"
  | Interface.landscapeRight => "landscape-secondary"
  | _ => "portrait-primary"
  end.

Definition mapDeviceOrientationToString (orientation : Device.t) : string :=
  match orientation with
  | Device.portrait => "portrait-primary"
  | Device.portraitUpsideDown => "portrait-secondary"
  | Device.landscapeLeft => "landscape-secondary"
  | Device.landscapeRight => "landscape-primary"
  | _ => "portrait-primary"
  end.

Definition getCurrentOrientationType : Action World string :=
  io <- gets (fun w => interfaceOrientation (host w)) ;;
  let interfaceOrientation :=
    match io with Some o => o | None => Interface.portrait end in
  ret (mapInterfaceOrientationToString interfaceOrientation).

Definition notifyOrientationChange (deviceOrientation : Device.t)
  : Action World unit :=
  let orientationType := mapDeviceOrientationToString deviceOrientation in
  last <- gets (fun w => lastNotifiedOrientation (this w)) ;;
  if differs orientationType last then
    modify (set_lastNotifiedOrientation (Some orientationType)) ;;
    notifyListeners "screenOrientationChange"
      (put "type" (JSString orientationType) [])
  else ret tt.

Definition orientationDidChange : Action World unit :=
  tracking <- gets (fun w => isTrackingWithMotion (this w)) ;;
  if tracking then ret tt
  else
    orientation <- gets (fun w => deviceOrientation (host w)) ;;
    if Device.isValidInterfaceOrientation orientation then
      notifyOrientationChange orientation
    else ret tt.

Definition threshold : Q := 1 # 2.

(** The classifier reads the property [currentDeviceOrientation] for its
    fallback; it is passed here as [current]. *)
Definition determineOrientation (current : Device.t) (acceleration : CMAcceleration)
  : Device.t :=
  if Qltb (x acceleration) (- threshold) then Device.landscapeRight
  else if Qgtb (x acceleration) threshold then Device.landscapeLeft
  else if Qltb (y acceleration) (- threshold) then Device.portrait
  else if Qgtb (y acceleration) threshold then Device.portraitUpsideDown
  else current.

(** The closure handed to [startAccelerometerUpdates]; [data] is nil when
    the manager reports an error. *)
Definition accelerometerHandler (data : option CMAcceleration)
  : Action World unit :=
  match data with
  | None => ret tt
  | Some d =>
      let acceleration := d in
      cur <- gets (fun w => currentDeviceOrientation (this w)) ;;
      let orientation := determineOrientation cur acceleration in
      if negb (Device.eqb orientation cur) then
        modify (set_currentDeviceOrientation orientation) ;;
        notifyOrientationChange orientation
      else ret tt
  end.

Definition startMotionTracking : Action World unit :=
  tracking <- gets (fun w => isTrackingWithMotion (this w)) ;;
  if tracking then ret tt
  else
    modify (set_motionManager true) ;;
    avail <- gets (fun w => isAccelerometerAvailable (host w)) ;;
    if avail then
      modify (set_isTrackingWithMotion true) ;;
      startAccelerometerUpdates
    else ret tt.

Definition stopMotionTracking : Action World unit :=
  tracking <- gets (fun w => isTrackingWithMotion (this w)) ;;
  if negb tracking then ret tt
  else
    mm <- gets (fun w => motionManager (this w)) ;;
    when mm stopAccelerometerUpdates ;;
    modify (set_motionManager false) ;;
    modify (set_isTrackingWithMotion false).

Definition orientation : Action World CallResult :=
  orientationType <- getCurrentOrientationType ;;
  ret (Resolve (put "type" (JSString orientationType) [])).

(** The body dispatched to the main queue runs to completion before the
    call resolves; the orientation mask it computes is only printed. *)
Definition lock (call : JSObject) : Action World CallResult :=
  match getString call "orientation" with
  | None => ret (Reject "Orientation parameter is required")
  | Some orientationString =>
      let bypassLock := getBoolean call "bypassOrientationLock" false in
      when bypassLock startMotionTracking ;;
      ret (Resolve [])
  end.

Definition unlock : Action World CallResult :=
  stopMotionTracking ;;
  ret (Resolve []).

Definition startOrientationTracking (call : JSObject) : Action World CallResult :=
  let bypassLock := getBoolean call "bypassOrientationLock" false in
  when bypassLock startMotionTracking ;;
  ret (Resolve []).

Definition stopOrientationTracking : Action World CallResult :=
  stopMotionTracking ;;
  ret (Resolve []).

Definition isOrientationLocked : Action World CallResult :=
  uiOrientation <- getCurrentOrientationType ;;
  tracking <- gets (fun w => isTrackingWithMotion (this w)) ;;
  if tracking then
    cur <- gets (fun w => currentDeviceOrientation (this w)) ;;
    let physicalOrientation := mapDeviceOrientationToString cur in
    let locked := negb (String.eqb physicalOrientation uiOrientation) in
    ret (Resolve (put "uiOrientation" (JSString uiOrientation)
                   (put "physicalOrientation" (JSString physicalOrientation)
                     (put "locked" (JSBool locked) []))))
  else
    ret (Resolve (put "uiOrientation" (JSString uiOrientation)
                   (put "locked" (JSBool false) []))).

(** Everything that can happen to the plugin.  A device-orientation
    notification first updates [UIDevice.current.orientation]; an
    accelerometer update is delivered only while updates are running. *)
Inductive Input : Type :=
| OrientationDidChange (newOrientation : Device.t)
| InterfaceRotated (newOrientation : option Interface.t)
| AccelerometerUpdate (data : option CMAcceleration)
| CallOrientation
| CallLock (call : JSObject)
| CallUnlock
| CallStartOrientationTracking (call : JSObject)
| CallStopOrientationTracking
| CallIsOrientationLocked.

Definition discard {A} (m : Action World A) : Action World unit :=
  m ;; ret tt.

Definition step (i : Input) : Action World unit :=
  match i with
  | OrientationDidChange o =>
      modify (set_deviceOrientation o) ;; orientationDidChange
  | InterfaceRotated o => modify (set_interfaceOrientation o)
  | AccelerometerUpdate d =>
      n <- gets (fun w => accelerometerUpdates (host w)) ;;
      if (0 <? n)%nat then accelerometerHandler d else ret tt
  | CallOrientation => discard orientation
  | CallLock c => discard (lock c)
  | CallUnlock => discard unlock
  | CallStartOrientationTracking c => discard (startOrientationTracking c)
  | CallStopOrientationTracking => discard stopOrientationTracking
  | CallIsOrientationLocked => discard isOrientationLocked
  end.

(** Feed a list of accelerometer updates to the handler. *)
Fixpoint feed (ds : list (option CMAcceleration)) (w : World)
  : World * list Event :=
  match ds with
  | [] => (w, [])
  | d :: rest =>
      let r := accelerometerHandler d w in
      let r' := feed rest (world r) in
      (fst r', (events r ++ snd r')%list)
  end.

(** A freshly constructed plugin on a host ([load] only subscribes to the
    notification centre). *)
Definition boot (h : Host) : World := mkWorld newPlugin h.

Inductive reachable : World -> Prop :=
| reachable_boot h : accelerometerUpdates h = 0%nat -> reachable (boot h)
| reachable_step w i : reachable w -> reachable (world (step i w)).

(** [UIInterfaceOrientationMask], as far as the plugin names it. *)
Module Mask.
Inductive t : Type :=
| all | portrait | landscape | portraitUpsideDown | landscapeLeft | landscapeRight.
End Mask.

Definition getOrientationMask (orientationString : string) : option Mask.t :=
  if String.eqb orientationString "any" then Some Mask.all
  else if String.eqb orientationString "natural"
          || String.eqb orientationString "portrait" then Some Mask.portrait
  else if String.eqb orientationString "landscape" then Some Mask.landscape
  else if String.eqb orientationString "portrait-primary" then Some Mask.portrait
  else if String.eqb orientationString "portrait-secondary"
    then Some Mask.portraitUpsideDown
  else if String.eqb orientationString "landscape-primary"
    then Some Mask.landscapeLeft
  else if String.eqb orientationString "landscape-secondary"
    then Some Mask.landscapeRight
  else None.

(** Run a list of inputs, collecting the events in order. *)
Fixpoint run (inputs : list Input) (w : World) : World * list Event :=
  match inputs with
  | [] => (w, [])
  | i :: rest =>
      let r := step i w in
      let r' := run rest (world r) in
      (fst r', (events r ++ snd r')%list)
  end.

End IOS.

(** ** Web: web.ts *)

Module Web.

Local Open Scope string_scope.
Local Open Scope action_scope.

(** JavaScript's [String.prototype.includes]. *)
Fixpoint includes (s sub : string) : bool :=
  if String.prefix sub s then true
  else match s with
       | EmptyString => false
       | String _ s' => includes s' sub
       end.

(** [window.screen?.orientation]: its [type], whether it has [lock] and
    [unlock] methods, the error its [lock] promise rejects with, if it
    does, and the error its [unlock] throws, if it does. *)
Record ScreenOrientation : Type := mkScreenOrientation {
  type : string;
  hasLock : bool;
  hasUnlock : bool;
  lockRejects : option string;
  unlockThrows : option string
}.

(** The page: the screen-orientation object, when there is one, and the
    orientation the page asked to be locked to. *)
Record World : Type := mkWorld {
  screenOrientation : option ScreenOrientation;
  lockedTo : option string
}.

Definition set_lockedTo (v : option string) (w : World) : World :=
  mkWorld (screenOrientation w) v.

Definition mapOrientationType (type : string) : string :=
  if includes type "portrait-primary" || String.eqb type "portrait-primary"
  then "portrait-primary"
  else if includes type "portrait-secondary" || String.eqb type "portrait-secondary"
  then "portrait-secondary"
  else if includes type "landscape-primary" || String.eqb type "landscape-primary"
  then "landscape-primary"
  else if includes type "landscape-secondary" || String.eqb type "landscape-secondary"
  then "landscape-secondary"
  else "portrait-primary".

(** The listener the constructor adds for the screen's [change] event;
    it is only added when the screen-orientation object exists. *)
Definition onChange : Action World unit :=
  so <- gets screenOrientation ;;
  match so with
  | Some o =>
      notifyListeners "screenOrientationChange"
        (put "type" (JSString (mapOrientationType (type o))) [])
  | None => ret tt
  end.

(** A thrown error rejects the promise of the [async] method. *)
Definition orientation : Action World CallResult :=
  so <- gets screenOrientation ;;
  match so with
  | None => ret (Reject "Screen Orientation API not available")
  | Some o =>
      ret (Resolve (put "type" (JSString (mapOrientationType (type o))) []))
  end.

Definition lock (options : JSObject) : Action World CallResult :=
  so <- gets screenOrientation ;;
  match so with
  | None => ret (Reject "Screen Orientation lock not available")
  | Some o =>
      if negb (hasLock o) then ret (Reject "Screen Orientation lock not available")
      else
        match lockRejects o with
        | Some error => ret (Reject ("Failed to lock orientation: " ++ error))
        | None =>
            modify (set_lockedTo (getString options "orientation")) ;;
            ret (Resolve [])
        end
  end.

Definition unlock : Action World CallResult :=
  so <- gets screenOrientation ;;
  match so with
  | None => ret (Reject "Screen Orientation unlock not available")
  | Some o =>
      if negb (hasUnlock o) then ret (Reject "Screen Orientation unlock not available")
      else
        match unlockThrows o with
        | Some error => ret (Reject error)
        | None => modify (set_lockedTo None) ;; ret (Resolve [])
        end
  end.

Definition startOrientationTracking (_options : JSObject) : Action World CallResult :=
  ret (Resolve []).

Definition stopOrientationTracking : Action World CallResult :=
  ret (Resolve []).

Definition isOrientationLocked : Action World CallResult :=
  orientationResult <- orientation ;;
  match orientationResult with
  | Reject message => ret (Reject message)
  | Resolve result =>
      match get "type" result with
      | Some t =>
          ret (Resolve (put "uiOrientation" t (put "locked" (JSBool false) [])))
      | None => ret (Resolve (put "locked" (JSBool false) []))
      end
  end.

End Web.
(** * Specification vocabulary *)

(** The four canonical labels, as the strings both platforms send. *)

Definition is_label (s : string) : Prop :=
  s = "portrait-primary"%string \/ s = "portrait-secondary"%string \/
  s = "landscape-primary"%string \/ s = "landscape-secondary"%string.

Definition is_landscape (s : string) : Prop :=
  s = "landscape-primary"%string \/ s = "landscape-secondary"%string.

Definition is_portrait (s : string) : Prop :=
  s = "portrait-primary"%string \/ s = "portrait-secondary"%string.

(** No two consecutive events carry the same payload. *)
Fixpoint no_consecutive_duplicates (l : list (option string)) : Prop :=
  match l with
  | a :: (b :: _) as tl => a <> b /\ no_consecutive_duplicates tl
  | _ => True
  end.

(** Every payload differs from the one before it, starting after [last]. *)
Fixpoint fresh_chain (last : option string) (l : list (option string)) : Prop :=
  match l with
  | [] => True
  | a :: tl => a <> last /\ fresh_chain a tl
  end.

(** The LockStatus of the data model, read off a resolved result: [locked]
    is true exactly when tracking is active and the physical label differs
    from the UI label, [physicalOrientation] is there exactly when tracking
    is active (and then is the physical label), [uiOrientation] is always
    there. *)
Definition lock_status (tracking : bool) (physical ui : string) (o : JSObject) : Prop :=
  (exists locked : bool,
      get "locked" o = Some (JSBool locked) /\
      (locked = true <-> tracking = true /\ physical <> ui)) /\
  (has "physicalOrientation" o = true <-> tracking = true) /\
  (tracking = true -> get "physicalOrientation" o = Some (JSString physical)) /\
  (tracking = false -> get "locked" o = Some (JSBool false)) /\
  get "uiOrientation" o = Some (JSString ui).

(** The single event a change of orientation sends. *)
Definition change_event (label : string) : Event :=
  mkEvent "screenOrientationChange" [("type"%string, JSString label)].

(** Consistency of the Android plugin with its host: tracking goes with
    exactly one registration, no tracking with none. *)
Definition android_inv (w : Android.World) : Prop :=
  (Android.isTrackingMotion (Android.this w) = true ->
   Android.sensorListeners (Android.host w) = 1%nat /\
   Android.accelerometer (Android.this w) = true) /\
  (Android.isTrackingMotion (Android.this w) = false ->
   Android.sensorListeners (Android.host w) = 0%nat) /\
  (Android.accelerometer (Android.this w) = true ->
   Android.sensorManager (Android.this w) = true) /\
  is_label (Android.currentPhysicalOrientation (Android.this w)).


(** Consistency of the iOS plugin with its host. *)
Definition ios_inv (w : IOS.World) : Prop :=
  (IOS.isTrackingWithMotion (IOS.this w) = true ->
   IOS.accelerometerUpdates (IOS.host w) = 1%nat /\
   IOS.motionManager (IOS.this w) = true) /\
  (IOS.isTrackingWithMotion (IOS.this w) = false ->
   IOS.accelerometerUpdates (IOS.host w) = 0%nat) /\
  IOS.Device.isValidInterfaceOrientation
    (IOS.currentDeviceOrientation (IOS.this w)) = true.

(** The call data [{bypassOrientationLock: true}]. *)
Definition bypass_call : JSObject :=
  [("bypassOrientationLock"%string, JSBool true)].

(** The world after two [startOrientationTracking({bypassOrientationLock:
    true})] calls in a row. *)
Definition android_started_twice (w : Android.World) : Android.World :=
  world (Android.startOrientationTracking bypass_call
           (world (Android.startOrientationTracking bypass_call w))).

Definition ios_started_twice (w : IOS.World) : IOS.World :=
  world (IOS.startOrientationTracking bypass_call
           (world (IOS.startOrientationTracking bypass_call w))).

(** Hosts used in examples: a phone held upright, with and without an
    accelerometer. *)
Definition android_phone : Android.Host :=
  Android.mkHost Android.ORIENTATION_PORTRAIT Android.ROTATION_0 true true
    Android.SCREEN_ORIENTATION_UNSPECIFIED false 0.

Definition android_phone_without_accelerometer : Android.Host :=
  Android.mkHost Android.ORIENTATION_PORTRAIT Android.ROTATION_0 true false
    Android.SCREEN_ORIENTATION_UNSPECIFIED false 0.

Definition ios_phone : IOS.Host :=
  IOS.mkHost IOS.Device.portrait (Some IOS.Interface.portrait) true 0.

Definition ios_phone_without_accelerometer : IOS.Host :=
  IOS.mkHost IOS.Device.portrait (Some IOS.Interface.portrait) false 0.


(** An event as listeners expect it: the topic [screenOrientationChange]
    with one of the four labels as its [type]. *)
Definition well_formed_event (e : Event) : Prop :=
  exists label, e = change_event label /\ is_label label.

(** The interface orientation UIKit pairs with a device orientation, as the
    comments in [mapDeviceOrientationToString] put it: device left is
    interface right, device right is interface left. *)
Definition interface_of_device (d : IOS.Device.t) : IOS.Interface.t :=
  match d with
  | IOS.Device.portrait => IOS.Interface.portrait
  | IOS.Device.portraitUpsideDown => IOS.Interface.portraitUpsideDown
  | IOS.Device.landscapeLeft => IOS.Interface.landscapeRight
  | IOS.Device.landscapeRight => IOS.Interface.landscapeLeft
  | _ => IOS.Interface.unknown
  end.

(** The eight values of [OrientationLockType]. *)
Definition is_lock_type (s : string) : Prop :=
  s = "any"%string \/ s = "natural"%string \/
  s = "landscape"%string \/ s = "portrait"%string \/ is_label s.

(** * Properties *)

(** ** Comparisons *)

Lemma Qgtb_true (a b : Q) : Qgtb a b = true <-> (b < a)%Q.
Proof.
  unfold Qgtb. rewrite negb_true_iff. split; intro H.
  - apply Qnot_le_lt. intro Hle. apply Qle_bool_iff in Hle. congruence.
  - destruct (Qle_bool a b) eqn:E; [|reflexivity].
    apply Qle_bool_iff in E. exfalso. apply (Qlt_not_le _ _ H E).
Qed.

Lemma Qgtb_false (a b : Q) : Qgtb a b = false <-> (a <= b)%Q.
Proof.
  unfold Qgtb. rewrite negb_false_iff. apply Qle_bool_iff.
Qed.

Lemma Qltb_true (a b : Q) : Qltb a b = true <-> (a < b)%Q.
Proof. apply (Qgtb_true b a). Qed.

Lemma Qltb_false (a b : Q) : Qltb a b = false <-> (b <= a)%Q.
Proof. apply (Qgtb_false b a). Qed.

(** Turn every boolean comparison in the context into its proposition. *)
Ltac qprops :=
  repeat match goal with
  | H : Qgtb _ _ = true |- _ => apply Qgtb_true in H
  | H : Qgtb _ _ = false |- _ => apply Qgtb_false in H
  | H : Qltb _ _ = true |- _ => apply Qltb_true in H
  | H : Qltb _ _ = false |- _ => apply Qltb_false in H
  | H : _ && _ = true |- _ => apply andb_true_iff in H; destruct H
  | H : _ && _ = false |- _ => apply andb_false_iff in H; destruct H
  end.

(** Split on the sign of [q] and record what [Qabs q] is. *)
Ltac qabs q :=
  let Hs := fresh "Hsign" in
  let Ha := fresh "Habs" in
  destruct (Qlt_le_dec q 0) as [Hs | Hs];
  [ assert (Ha : (Qabs q == - q)%Q) by (apply Qabs_neg; lra)
  | assert (Ha : (Qabs q == q)%Q) by (apply Qabs_pos; exact Hs) ].

Lemma is_label_cases (s : string) : is_label s <-> is_portrait s \/ is_landscape s.
Proof. unfold is_label, is_portrait, is_landscape. tauto. Qed.

Lemma portrait_not_landscape (s : string) : is_portrait s -> ~ is_landscape s.
Proof.
  unfold is_portrait, is_landscape.
  intros [-> | ->] [H | H]; discriminate H.
Qed.

(** ** The Android classifier *)

Section AndroidClassifier.

Import Android.
Variables (prev : string) (x y z : Q).
Let r := determinePhysicalOrientation prev x y z.

Lemma android_landscape_branch :
  (threshold < Qabs x)%Q -> (Qabs y < Qabs x)%Q ->
  ((0 < x)%Q -> r = "landscape-primary"%string) /\
  ((x < 0)%Q -> r = "landscape-secondary"%string) /\
  is_landscape r.
Proof.
  intros Ht Hxy. subst r. unfold determinePhysicalOrientation.
  apply Qgtb_true in Ht. apply Qgtb_true in Hxy. rewrite Ht, Hxy. simpl.
  destruct (Qgtb x 0) eqn:E; qprops; unfold is_landscape;
    (repeat split; [ intros; try reflexivity; lra .. | tauto ]).
Qed.

Lemma android_portrait_branch :
  ~ ((threshold < Qabs x)%Q /\ (Qabs y < Qabs x)%Q) ->
  (threshold < Qabs y)%Q ->
  ((0 < y)%Q -> r = "portrait-primary"%string) /\
  ((y < 0)%Q -> r = "portrait-secondary"%string) /\
  is_portrait r.
Proof.
  intros Hn Hy. subst r. unfold determinePhysicalOrientation.
  destruct (Qgtb (Qabs x) threshold && Qgtb (Qabs x) (Qabs y)) eqn:E.
  - qprops. tauto.
  - apply Qgtb_true in Hy. rewrite Hy.
    destruct (Qgtb y 0) eqn:E'; qprops; unfold is_portrait;
      (repeat split; [ intros; try reflexivity; lra .. | tauto ]).
Qed.

Lemma android_fallback_branch :
  ~ ((threshold < Qabs x)%Q /\ (Qabs y < Qabs x)%Q) ->
  (Qabs y <= threshold)%Q ->
  r = prev.
Proof.
  intros Hn Hy. subst r. unfold determinePhysicalOrientation.
  destruct (Qgtb (Qabs x) threshold && Qgtb (Qabs x) (Qabs y)) eqn:E.
  - qprops. tauto.
  - apply Qgtb_false in Hy. rewrite Hy. reflexivity.
Qed.

Lemma android_classifier_label : is_label prev -> is_label r.
Proof.
  intro Hp. subst r. unfold determinePhysicalOrientation, is_label.
  destruct (_ && _); [destruct (Qgtb x 0); tauto|].
  destruct (Qgtb (Qabs y) threshold); [destruct (Qgtb y 0); tauto|].
  exact Hp.
Qed.

Lemma android_below_threshold :
  (Qabs x <= threshold)%Q -> (Qabs y <= threshold)%Q -> r = prev.
Proof.
  intros Hx Hy. apply android_fallback_branch; [|exact Hy].
  intros [H _]. lra.
Qed.

End AndroidClassifier.

(** ** The iOS classifier *)

Section IOSClassifier.

Import IOS.
Variables (prev : Device.t) (a : CMAcceleration).
Let d := determineOrientation prev a.
Let r := mapDeviceOrientationToString d.

Lemma ios_landscape_branch :
  (threshold < Qabs (x a))%Q ->
  ((threshold < x a)%Q -> d = Device.landscapeLeft /\ r = "landscape-secondary"%string) /\
  ((x a < - threshold)%Q -> d = Device.landscapeRight /\ r = "landscape-primary"%string) /\
  is_landscape r.
Proof.
  intros Ht. subst r d. unfold determineOrientation, threshold in *.
  destruct (Qltb (x a) (- (1 # 2))) eqn:E1;
    [| destruct (Qgtb (x a) (1 # 2)) eqn:E2 ];
    qprops; unfold is_landscape; simpl.
  - repeat split; try tauto; intros; exfalso; lra.
  - repeat split; try tauto; intros; exfalso; lra.
  - exfalso. qabs (x a); lra.
Qed.

Lemma ios_portrait_branch :
  (Qabs (x a) <= threshold)%Q -> (threshold < Qabs (y a))%Q ->
  ((y a < - threshold)%Q -> d = Device.portrait /\ r = "portrait-primary"%string) /\
  ((threshold < y a)%Q -> d = Device.portraitUpsideDown /\ r = "portrait-secondary"%string) /\
  is_portrait r.
Proof.
  intros Hx Hy. subst r d. unfold determineOrientation, threshold in *.
  assert (Qltb (x a) (- (1 # 2)) = false) as ->
    by (apply Qltb_false; qabs (x a); lra).
  assert (Qgtb (x a) (1 # 2) = false) as ->
    by (apply Qgtb_false; qabs (x a); lra).
  destruct (Qltb (y a) (- (1 # 2))) eqn:E1;
    [| destruct (Qgtb (y a) (1 # 2)) eqn:E2 ];
    qprops; unfold is_portrait; simpl.
  - repeat split; try tauto; intros; exfalso; lra.
  - repeat split; try tauto; intros; exfalso; lra.
  - exfalso. qabs (y a); lra.
Qed.

Lemma ios_below_threshold :
  (Qabs (x a) <= threshold)%Q -> (Qabs (y a) <= threshold)%Q -> d = prev.
Proof.
  intros Hx Hy. subst d. unfold determineOrientation, threshold in *.
  assert (Qltb (x a) (- (1 # 2)) = false) as ->
    by (apply Qltb_false; qabs (x a); lra).
  assert (Qgtb (x a) (1 # 2) = false) as ->
    by (apply Qgtb_false; qabs (x a); lra).
  assert (Qltb (y a) (- (1 # 2)) = false) as ->
    by (apply Qltb_false; qabs (y a); lra).
  assert (Qgtb (y a) (1 # 2) = false) as ->
    by (apply Qgtb_false; qabs (y a); lra).
  reflexivity.
Qed.

Lemma ios_map_label (o : Device.t) : is_label (mapDeviceOrientationToString o).
Proof. unfold is_label. destruct o; simpl; tauto. Qed.

Lemma ios_classifier_valid :
  Device.isValidInterfaceOrientation prev = true ->
  Device.isValidInterfaceOrientation d = true.
Proof.
  intro Hp. subst d. unfold determineOrientation.
  repeat match goal with |- context [if ?b then _ else _] => destruct b end;
    auto.
Qed.

End IOSClassifier.

(** ** Running actions *)

Ltac exec_core :=
  unfold bind, gets, modify, ret, when, notifyListeners, value, world, events in *;
  simpl in *.

Ltac split_ifs :=
  repeat match goal with
  | |- context [if ?b then _ else _] => destruct b eqn:?; simpl in *
  | |- context [match ?o with Some _ => _ | None => _ end] =>
      destruct o eqn:?; simpl in *
  end.

Lemma equals_false_neq (s : string) (o : option string) :
  Android.equals s o = false -> Some s <> o.
Proof.
  destruct o as [t|]; simpl; [|discriminate].
  intros H E. injection E as ->. rewrite String.eqb_refl in H. discriminate.
Qed.

Lemma equals_true_eq (s : string) (o : option string) :
  Android.equals s o = true -> o = Some s.
Proof.
  destruct o as [t|]; simpl; [|discriminate].
  intro H. apply String.eqb_eq in H. now subst.
Qed.

Lemma differs_true_neq (s : string) (o : option string) :
  IOS.differs s o = true -> Some s <> o.
Proof.
  destruct o as [t|]; simpl; [|discriminate].
  intros H E. injection E as ->. rewrite String.eqb_refl in H. discriminate.
Qed.

Lemma differs_false_eq (s : string) (o : option string) :
  IOS.differs s o = false -> o = Some s.
Proof.
  destruct o as [t|]; simpl; [|discriminate].
  intro H. apply negb_false_iff, String.eqb_eq in H. now subst.
Qed.

Lemma option_string_dec (a b : option string) : {a = b} + {a <> b}.
Proof. decide equality. apply string_dec. Qed.

Lemma device_eqb_eq (a b : IOS.Device.t) : IOS.Device.eqb a b = true <-> a = b.
Proof. destruct a, b; simpl; split; intro H; try reflexivity; discriminate H. Qed.

Lemma fresh_chain_no_duplicates (last : option string) (l : list (option string)) :
  fresh_chain last l -> no_consecutive_duplicates l.
Proof.
  revert last. induction l as [|a tl IH]; intros last H; [exact I|].
  destruct H as [_ H]. destruct tl as [|b tl']; [exact I|].
  split; [|apply (IH a H)].
  destruct H as [Hb _]. congruence.
Qed.

(** ** The Android tracker *)

Ltac android_exec :=
  unfold Android.step, Android.discard, Android.lock, Android.unlock,
    Android.startOrientationTracking, Android.stopOrientationTracking,
    Android.isOrientationLocked, Android.orientation, Android.handleOnDestroy,
    Android.handleOnConfigurationChanged, Android.notifyOrientationChange,
    Android.getCurrentOrientationType, Android.onSensorChanged,
    Android.startMotionTracking, Android.stopMotionTracking,
    Android.registerListener, Android.unregisterListener,
    Android.setRequestedOrientation, Android.load, Android.boot in *;
  exec_core.

(** The same by call-by-value reduction of the plugin's own definitions
    only, which keeps the classifier and the string tests folded. *)
Ltac android_cbv :=
  cbv [Android.step Android.discard Android.lock Android.unlock
    Android.startOrientationTracking Android.stopOrientationTracking
    Android.isOrientationLocked Android.orientation Android.handleOnDestroy
    Android.handleOnConfigurationChanged Android.notifyOrientationChange
    Android.getCurrentOrientationType Android.onSensorChanged
    Android.startMotionTracking Android.stopMotionTracking
    Android.registerListener Android.unregisterListener
    Android.setRequestedOrientation Android.load Android.boot
    bind gets modify ret when notifyListeners value world events
    fst snd app negb orb
    Android.this Android.host Android.currentOrientation Android.sensorManager
    Android.accelerometer Android.isTrackingMotion
    Android.currentPhysicalOrientation Android.lastNotifiedOrientation
    Android.configurationOrientation Android.displayRotation
    Android.sensorService Android.defaultAccelerometer
    Android.requestedOrientation Android.setRequestedOrientationThrows
    Android.sensorListeners
    Android.set_currentOrientation Android.set_sensorManager
    Android.set_accelerometer Android.set_isTrackingMotion
    Android.set_currentPhysicalOrientation Android.set_lastNotifiedOrientation
    Android.set_requestedOrientation Android.set_sensorListeners
    Android.set_configuration] in *.

Section AndroidTracker.

Import Android.

(** One sample: what [onSensorChanged] does with the label the classifier
    returns. *)
Lemma android_onSensorChanged_spec (w : World) (e : SensorEvent) :
  sensorType e = TYPE_ACCELEROMETER ->
  let cur := currentPhysicalOrientation (this w) in
  let last := lastNotifiedOrientation (this w) in
  let label := determinePhysicalOrientation cur (values0 e) (values1 e) (values2 e) in
  let r := onSensorChanged e w in
  currentPhysicalOrientation (this (world r)) = label /\
  host (world r) = host w /\
  isTrackingMotion (this (world r)) = isTrackingMotion (this w) /\
  (label <> cur /\ Some label <> last ->
   events r = [change_event label] /\
   lastNotifiedOrientation (this (world r)) = Some label) /\
  (label = cur \/ Some label = last ->
   events r = [] /\ lastNotifiedOrientation (this (world r)) = last).
Proof.
  intros Ht cur last label r. subst r cur last label.
  destruct w as [p h]. unfold onSensorChanged. rewrite Ht. android_exec.
  set (label := determinePhysicalOrientation _ _ _ _).
  destruct (String.eqb label (currentPhysicalOrientation p)) eqn:E1; simpl.
  - apply String.eqb_eq in E1. repeat apply conj; auto.
    intros [H _]. congruence.
  - apply String.eqb_neq in E1.
    destruct (equals label (lastNotifiedOrientation p)) eqn:E2; simpl.
    + apply equals_true_eq in E2. repeat apply conj; auto.
      intros [_ H]. congruence.
    + apply equals_false_neq in E2. repeat apply conj; auto.
      intros [H | H]; congruence.
Qed.

Lemma android_onSensorChanged_other_sensor (w : World) (e : SensorEvent) :
  sensorType e <> TYPE_ACCELEROMETER -> onSensorChanged e w = (tt, w, []).
Proof.
  intro Ht. unfold onSensorChanged.
  apply Z.eqb_neq in Ht. rewrite Ht. reflexivity.
Qed.

(** One sample sends nothing, or one event whose label is new. *)
Lemma android_onSensorChanged_chain (w : World) (e : SensorEvent) :
  let r := onSensorChanged e w in
  (events r = [] /\
   lastNotifiedOrientation (this (world r)) = lastNotifiedOrientation (this w)) \/
  (exists label,
      events r = [change_event label] /\
      lastNotifiedOrientation (this (world r)) = Some label /\
      Some label <> lastNotifiedOrientation (this w)).
Proof.
  intro r. subst r.
  destruct (Z.eq_dec (sensorType e) TYPE_ACCELEROMETER) as [Ht | Ht].
  - destruct (android_onSensorChanged_spec w e Ht) as (_ & _ & _ & Hemit & Hquiet).
    set (label := determinePhysicalOrientation _ _ _ _) in *.
    destruct (string_dec label (currentPhysicalOrientation (this w))) as [E | E].
    + left. apply Hquiet. now left.
    + destruct (option_string_dec (Some label) (lastNotifiedOrientation (this w)))
        as [E' | E'].
      * left. apply Hquiet. now right.
      * right. exists label. destruct (Hemit (conj E E')) as [H1 H2]. auto.
  - rewrite (android_onSensorChanged_other_sensor w e Ht). left. split; reflexivity.
Qed.

Lemma android_feed_chain (es : list SensorEvent) (w : World) :
  fresh_chain (lastNotifiedOrientation (this w)) (map payload (snd (feed es w))).
Proof.
  revert w. induction es as [|e es IH]; intro w; simpl; [exact I|].
  rewrite map_app.
  destruct (android_onSensorChanged_chain w e) as [[He Hl] | (label & He & Hl & Hn)];
    rewrite He; simpl.
  - rewrite <- Hl. apply IH.
  - split; [exact Hn|]. specialize (IH (world (onSensorChanged e w))).
    rewrite Hl in IH. exact IH.
Qed.

(** Samples that keep classifying to the current label change nothing. *)
Lemma android_feed_same_label (es : list SensorEvent) (w : World) :
  Forall (fun e =>
            determinePhysicalOrientation (currentPhysicalOrientation (this w))
              (values0 e) (values1 e) (values2 e)
            = currentPhysicalOrientation (this w)) es ->
  feed es w = (w, []).
Proof.
  induction 1 as [|e es He _ IH]; simpl; [reflexivity|].
  assert (Hq : onSensorChanged e w = (tt, w, [])).
  { unfold onSensorChanged.
    destruct (negb (sensorType e =? TYPE_ACCELEROMETER)%Z); [reflexivity|].
    exec_core. rewrite He, String.eqb_refl. reflexivity. }
  rewrite Hq. unfold world, events. simpl. rewrite IH. reflexivity.
Qed.

(** *** The plugin stays consistent with its host *)

Lemma android_boot_inv (h : Host) : sensorListeners h = 0%nat -> android_inv (boot h).
Proof.
  intro H0. destruct h as [co dr ss da ro th n]. simpl in H0. subst n.
  unfold android_inv, is_label. android_exec.
  destruct ss; simpl; intuition (try discriminate; auto).
Qed.

Lemma android_step_inv (w : World) (i : Input) :
  android_inv w -> android_inv (world (step i w)).
Proof.
  destruct w as [[co sm acc tr cur last] [hco dr ss da ro th n]].
  unfold android_inv. intros (Ht & Hf & Ha & Hl).
  destruct i as [o r | e | | call | | call | | | ]; android_cbv; split_ifs;
    subst; try destruct tr; try destruct acc; try destruct sm;
    intuition (try discriminate; try congruence; auto);
    try (apply android_classifier_label; assumption).
Qed.

Lemma android_reachable_inv (w : World) : reachable w -> android_inv w.
Proof.
  induction 1 as [h H0 | w i _ IH]; [now apply android_boot_inv | now apply android_step_inv].
Qed.

Lemma android_run_reachable (inputs : list Input) (w : World) :
  reachable w -> reachable (fst (run inputs w)).
Proof.
  revert w. induction inputs as [|i rest IH]; intros w Hw; simpl; [exact Hw|].
  apply IH. now apply reachable_step.
Qed.

(** *** Starting and stopping *)

Lemma android_startMotionTracking_spec (w : World) :
  startMotionTracking w =
  (if isTrackingMotion (this w) || negb (accelerometer (this w)) then (tt, w, [])
   else (tt, set_sensorListeners (S (sensorListeners (host w)))
               (set_isTrackingMotion true w), [])).
Proof. android_exec. destruct (_ || _); reflexivity. Qed.

Lemma android_startOrientationTracking_bypass (w : World) :
  startOrientationTracking bypass_call w
  = (Resolve [], world (startMotionTracking w), []).
Proof.
  rewrite android_startMotionTracking_spec. android_exec. destruct (_ || _); reflexivity.
Qed.

Lemma android_start_twice (w : World) :
  android_inv w ->
  let r1 := startOrientationTracking bypass_call w in
  let r2 := startOrientationTracking bypass_call (world r1) in
  value r1 = Resolve [] /\ value r2 = Resolve [] /\
  world r2 = world r1 /\
  (accelerometer (this w) = true ->
   isTrackingMotion (this (world r2)) = true /\
   sensorListeners (host (world r2)) = 1%nat) /\
  (accelerometer (this w) = false ->
   world r2 = w /\
   isTrackingMotion (this (world r2)) = false /\
   sensorListeners (host (world r2)) = 0%nat).
Proof.
  intros Hinv r1 r2. subst r1 r2.
  rewrite !android_startOrientationTracking_bypass, !android_startMotionTracking_spec.
  destruct w as [[co sm acc tr cur last] [hco dr ss da ro th n]].
  unfold android_inv in Hinv. unfold world, value. simpl in *.
  destruct tr, acc; simpl in *;
    intuition (try discriminate; try congruence; auto).
Qed.


(** *** The UI path *)







(** *** Calls *)

Lemma android_isOrientationLocked_spec (w : World) :
  let r := isOrientationLocked w in
  let ui := value (getCurrentOrientationType w) in
  world r = w /\ events r = [] /\ is_label ui /\
  exists o, value r = Resolve o /\
    lock_status (isTrackingMotion (this w))
      (currentPhysicalOrientation (this w)) ui o.
Proof.
  destruct w as [[co sm acc tr cur last] [hco dr ss da ro th n]].
  android_exec. set (ui := if (hco =? ORIENTATION_PORTRAIT)%Z then _ else _).
  assert (Hui : is_label ui).
  { subst ui. unfold is_label.
    destruct (_ =? _)%Z; destruct (_ =? _)%Z; tauto. }
  destruct tr; simpl; (split; [reflexivity|]); (split; [reflexivity|]);
    (split; [exact Hui|]); eexists; (split; [reflexivity|]);
    unfold lock_status, has; simpl.
  - split; [|split; [tauto|split; [reflexivity|split; [discriminate|reflexivity]]]].
    exists (negb (String.eqb cur ui)). split; [reflexivity|].
    rewrite negb_true_iff. split.
    + intro H. apply String.eqb_neq in H. tauto.
    + intros [_ H]. now apply String.eqb_neq.
  - split; [|split; [|split; [discriminate|split; reflexivity]]].
    + exists false. split; [reflexivity|].
      split; [discriminate | intros [H _]; discriminate H].
    + split; discriminate.
Qed.

Lemma android_lock_without_orientation (w : World) (call : JSObject) :
  getString call "orientation" = None ->
  lock call w = (Reject "Orientation parameter is required", w, []).
Proof. intro H. unfold lock. rewrite H. reflexivity. Qed.

Lemma android_lock_with_orientation (w : World) (call : JSObject) (s : string) :
  getString call "orientation" = Some s ->
  setRequestedOrientationThrows (host w) = false ->
  let r := lock call w in
  value r = Resolve [] /\ events r = [] /\
  requestedOrientation (host (world r)) = getOrientationConstant s.
Proof.
  intros H Hth. destruct w as [[co sm acc tr cur last] [hco dr ss da ro th n]].
  simpl in Hth. subst th. android_exec. rewrite H. simpl.
  destruct (getBoolean call "bypassOrientationLock" false); simpl;
    [destruct (tr || negb acc)|]; simpl; auto.
Qed.

End AndroidTracker.

(** ** The iOS tracker *)

Ltac ios_exec :=
  unfold IOS.step, IOS.discard, IOS.lock, IOS.unlock,
    IOS.startOrientationTracking, IOS.stopOrientationTracking,
    IOS.isOrientationLocked, IOS.orientation, IOS.orientationDidChange,
    IOS.notifyOrientationChange, IOS.getCurrentOrientationType,
    IOS.accelerometerHandler, IOS.startMotionTracking, IOS.stopMotionTracking,
    IOS.startAccelerometerUpdates, IOS.stopAccelerometerUpdates, IOS.boot in *;
  exec_core.

Ltac ios_cbv :=
  cbv [IOS.step IOS.discard IOS.lock IOS.unlock
    IOS.startOrientationTracking IOS.stopOrientationTracking
    IOS.isOrientationLocked IOS.orientation IOS.orientationDidChange
    IOS.notifyOrientationChange IOS.getCurrentOrientationType
    IOS.accelerometerHandler IOS.startMotionTracking IOS.stopMotionTracking
    IOS.startAccelerometerUpdates IOS.stopAccelerometerUpdates IOS.boot
    bind gets modify ret when notifyListeners value world events
    fst snd app negb orb
    IOS.this IOS.host IOS.motionManager IOS.currentDeviceOrientation
    IOS.isTrackingWithMotion IOS.lastNotifiedOrientation
    IOS.deviceOrientation IOS.interfaceOrientation
    IOS.isAccelerometerAvailable IOS.accelerometerUpdates
    IOS.set_motionManager IOS.set_currentDeviceOrientation
    IOS.set_isTrackingWithMotion IOS.set_lastNotifiedOrientation
    IOS.set_accelerometerUpdates IOS.set_deviceOrientation
    IOS.set_interfaceOrientation] in *.

Section IOSTracker.

Import IOS.

(** One sample: what the accelerometer handler does with the orientation
    the classifier returns. *)
Lemma ios_accelerometerHandler_spec (w : World) (a : CMAcceleration) :
  let cur := currentDeviceOrientation (this w) in
  let last := lastNotifiedOrientation (this w) in
  let d := determineOrientation cur a in
  let label := mapDeviceOrientationToString d in
  let r := accelerometerHandler (Some a) w in
  currentDeviceOrientation (this (world r)) = d /\
  host (world r) = host w /\
  isTrackingWithMotion (this (world r)) = isTrackingWithMotion (this w) /\
  (d <> cur /\ Some label <> last ->
   events r = [change_event label] /\
   lastNotifiedOrientation (this (world r)) = Some label) /\
  (d = cur \/ Some label = last ->
   events r = [] /\ lastNotifiedOrientation (this (world r)) = last).
Proof.
  intros cur last d label r. subst r cur last label d.
  destruct w as [p h]. ios_exec.
  set (d := determineOrientation _ _).
  destruct (Device.eqb d (currentDeviceOrientation p)) eqn:E1; simpl.
  - apply device_eqb_eq in E1. repeat apply conj; auto.
    intros [H _]. congruence.
  - assert (Hd : d <> currentDeviceOrientation p).
    { intro H. apply device_eqb_eq in H. congruence. }
    destruct (differs (mapDeviceOrientationToString d) (lastNotifiedOrientation p))
      eqn:E2; simpl.
    + apply differs_true_neq in E2. repeat apply conj; auto.
      intros [H | H]; congruence.
    + apply differs_false_eq in E2. repeat apply conj; auto.
      intros [_ H]. congruence.
Qed.

Lemma ios_accelerometerHandler_chain (w : World) (data : option CMAcceleration) :
  let r := accelerometerHandler data w in
  (events r = [] /\
   lastNotifiedOrientation (this (world r)) = lastNotifiedOrientation (this w)) \/
  (exists label,
      events r = [change_event label] /\
      lastNotifiedOrientation (this (world r)) = Some label /\
      Some label <> lastNotifiedOrientation (this w)).
Proof.
  intro r. subst r. destruct data as [a|]; [|left; split; reflexivity].
  destruct (ios_accelerometerHandler_spec w a) as (_ & _ & _ & Hemit & Hquiet).
  set (d := determineOrientation _ _) in *.
  destruct (Device.eqb d (currentDeviceOrientation (this w))) eqn:E.
  - left. apply Hquiet. left. now apply device_eqb_eq.
  - assert (Hd : d <> currentDeviceOrientation (this w)).
    { intro H. apply device_eqb_eq in H. congruence. }
    destruct (option_string_dec (Some (mapDeviceOrientationToString d))
                (lastNotifiedOrientation (this w))) as [E' | E'].
    + left. apply Hquiet. now right.
    + right. exists (mapDeviceOrientationToString d).
      destruct (Hemit (conj Hd E')) as [H1 H2]. auto.
Qed.

Lemma ios_feed_chain (ds : list (option CMAcceleration)) (w : World) :
  fresh_chain (lastNotifiedOrientation (this w)) (map payload (snd (feed ds w))).
Proof.
  revert w. induction ds as [|d ds IH]; intro w; simpl; [exact I|].
  rewrite map_app.
  destruct (ios_accelerometerHandler_chain w d) as [[He Hl] | (label & He & Hl & Hn)];
    rewrite He; simpl.
  - rewrite <- Hl. apply IH.
  - split; [exact Hn|]. specialize (IH (world (accelerometerHandler d w))).
    rewrite Hl in IH. exact IH.
Qed.

(** Samples that keep classifying to the current orientation change nothing. *)
Lemma ios_feed_same_label (ds : list (option CMAcceleration)) (w : World) :
  Forall (fun d =>
            match d with
            | Some a =>
                determineOrientation (currentDeviceOrientation (this w)) a
                = currentDeviceOrientation (this w)
            | None => True
            end) ds ->
  feed ds w = (w, []).
Proof.
  induction 1 as [|d ds Hd _ IH]; simpl; [reflexivity|].
  assert (Hq : accelerometerHandler d w = (tt, w, [])).
  { destruct d as [a|]; [|reflexivity]. ios_exec. rewrite Hd.
    assert (E : Device.eqb (currentDeviceOrientation (this w))
                  (currentDeviceOrientation (this w)) = true)
      by now apply device_eqb_eq.
    rewrite E. reflexivity. }
  rewrite Hq. unfold world, events. simpl. rewrite IH. reflexivity.
Qed.

(** *** The plugin stays consistent with its host *)

Lemma ios_boot_inv (h : Host) : accelerometerUpdates h = 0%nat -> ios_inv (boot h).
Proof.
  intro H0. unfold ios_inv. ios_exec. intuition (try discriminate; auto).
Qed.

Lemma ios_step_inv (w : World) (i : Input) :
  ios_inv w -> ios_inv (world (step i w)).
Proof.
  destruct w as [[mm cur tr last] [dev io av n]].
  unfold ios_inv. intros (Ht & Hf & Hv).
  destruct i as [o | o | [a|] | | call | | call | | ]; ios_cbv; split_ifs;
    subst; try destruct tr; try destruct mm;
    intuition (try discriminate; try congruence; auto);
    try (apply ios_classifier_valid; assumption).
Qed.

Lemma ios_reachable_inv (w : World) : reachable w -> ios_inv w.
Proof.
  induction 1 as [h H0 | w i _ IH]; [now apply ios_boot_inv | now apply ios_step_inv].
Qed.

(** *** Starting and stopping *)

Lemma ios_startMotionTracking_spec (w : World) :
  startMotionTracking w =
  (if isTrackingWithMotion (this w) then (tt, w, [])
   else if isAccelerometerAvailable (host w) then
     (tt, set_accelerometerUpdates (S (accelerometerUpdates (host w)))
            (set_isTrackingWithMotion true (set_motionManager true w)), [])
   else (tt, set_motionManager true w, [])).
Proof.
  destruct w as [[mm cur tr last] [dev io av n]]. ios_exec.
  destruct tr, av; reflexivity.
Qed.

Lemma ios_startOrientationTracking_bypass (w : World) :
  startOrientationTracking bypass_call w
  = (Resolve [], world (startMotionTracking w), []).
Proof.
  rewrite ios_startMotionTracking_spec.
  destruct w as [[mm cur tr last] [dev io av n]]. ios_exec.
  destruct tr, av; reflexivity.
Qed.

Lemma ios_start_twice (w : World) :
  ios_inv w ->
  let r1 := startOrientationTracking bypass_call w in
  let r2 := startOrientationTracking bypass_call (world r1) in
  value r1 = Resolve [] /\ value r2 = Resolve [] /\
  world r2 = world r1 /\
  (isAccelerometerAvailable (host w) = true ->
   isTrackingWithMotion (this (world r2)) = true /\
   accelerometerUpdates (host (world r2)) = 1%nat) /\
  (isTrackingWithMotion (this w) = false ->
   isAccelerometerAvailable (host w) = false ->
   isTrackingWithMotion (this (world r2)) = false /\
   accelerometerUpdates (host (world r2)) = 0%nat).
Proof.
  intros Hinv r1 r2. subst r1 r2.
  rewrite !ios_startOrientationTracking_bypass, !ios_startMotionTracking_spec.
  destruct w as [[mm cur tr last] [dev io av n]].
  unfold ios_inv in Hinv. unfold world, value. simpl in *.
  destruct tr, av; simpl in *;
    intuition (try discriminate; try congruence; auto).
Qed.


(** *** The UI path *)


Lemma ios_orientationDidChange_emits (w : World) :
  isTrackingWithMotion (this w) = false ->
  Device.isValidInterfaceOrientation (deviceOrientation (host w)) = true ->
  let label := mapDeviceOrientationToString (deviceOrientation (host w)) in
  Some label <> lastNotifiedOrientation (this w) ->
  let r := orientationDidChange w in
  events r = [change_event label] /\
  lastNotifiedOrientation (this (world r)) = Some label.
Proof.
  destruct w as [p h]. simpl. intros Ht Hv Hn. ios_exec.
  rewrite Ht. simpl. rewrite Hv. simpl.
  destruct (differs _ (lastNotifiedOrientation p)) eqn:E; simpl.
  - split; reflexivity.
  - apply differs_false_eq in E. congruence.
Qed.

(** *** Calls *)

Lemma ios_isOrientationLocked_spec (w : World) :
  let r := isOrientationLocked w in
  let ui := value (getCurrentOrientationType w) in
  world r = w /\ events r = [] /\ is_label ui /\
  exists o, value r = Resolve o /\
    lock_status (isTrackingWithMotion (this w))
      (mapDeviceOrientationToString (currentDeviceOrientation (this w))) ui o.
Proof.
  destruct w as [[mm cur tr last] [dev io av n]].
  ios_exec. set (ui := mapInterfaceOrientationToString _).
  set (phys := mapDeviceOrientationToString cur).
  assert (Hui : is_label ui).
  { subst ui. unfold is_label. destruct io as [[]|]; simpl; tauto. }
  destruct tr; simpl; (split; [reflexivity|]); (split; [reflexivity|]);
    (split; [exact Hui|]); eexists; (split; [reflexivity|]);
    unfold lock_status, has; simpl.
  - split; [|split; [tauto|split; [reflexivity|split; [discriminate|reflexivity]]]].
    exists (negb (String.eqb phys ui)). split; [reflexivity|].
    rewrite negb_true_iff. split.
    + intro H. apply String.eqb_neq in H. tauto.
    + intros [_ H]. now apply String.eqb_neq.
  - split; [|split; [|split; [discriminate|split; reflexivity]]].
    + exists false. split; [reflexivity|].
      split; [discriminate | intros [H _]; discriminate H].
    + split; discriminate.
Qed.

Lemma ios_lock_without_orientation (w : World) (call : JSObject) :
  getString call "orientation" = None ->
  lock call w = (Reject "Orientation parameter is required", w, []).
Proof. intro H. unfold lock. rewrite H. reflexivity. Qed.

Lemma ios_lock_with_orientation (w : World) (call : JSObject) (s : string) :
  getString call "orientation" = Some s ->
  let r := lock call w in
  value r = Resolve [] /\ events r = [].
Proof.
  intros H. destruct w as [[mm cur tr last] [dev io av n]].
  ios_exec. rewrite H. simpl.
  destruct (getBoolean call "bypassOrientationLock" false); simpl;
    [destruct tr, av|]; simpl; auto.
Qed.

End IOSTracker.

(** ** Classifier claims *)

(** C2 — The classifier is total with hysteresis.  For every sample and
    every previous label the Android classifier returns one of the four
    labels, and the iOS classifier followed by its label mapping does so
    for every previous device orientation; when [|x|] and [|y|] are both
    at or below the threshold (the all-zero sample included) the previous
    value is returned unchanged.  The previous value the Android plugin
    passes is a label in every reachable state. *)
Theorem classifier_total_with_hysteresis :
  (forall (prev : string) (x y z : Q),
      is_label prev ->
      is_label (Android.determinePhysicalOrientation prev x y z) /\
      ((Qabs x <= Android.threshold)%Q -> (Qabs y <= Android.threshold)%Q ->
       Android.determinePhysicalOrientation prev x y z = prev)) /\
  (forall (prev : IOS.Device.t) (a : IOS.CMAcceleration),
      is_label (IOS.mapDeviceOrientationToString (IOS.determineOrientation prev a)) /\
      ((Qabs (IOS.x a) <= IOS.threshold)%Q -> (Qabs (IOS.y a) <= IOS.threshold)%Q ->
       IOS.determineOrientation prev a = prev /\
       IOS.mapDeviceOrientationToString (IOS.determineOrientation prev a)
       = IOS.mapDeviceOrientationToString prev)) /\
  (forall w : Android.World,
      Android.reachable w ->
      is_label (Android.currentPhysicalOrientation (Android.this w))).
Proof.
  split; [|split].
  - intros prev x y z Hp. split.
    + now apply android_classifier_label.
    + apply android_below_threshold.
  - intros prev a. split.
    + apply ios_map_label.
    + intros Hx Hy. rewrite (ios_below_threshold prev a Hx Hy). now split.
  - intros w Hw. apply (android_reachable_inv w Hw).
Qed.

Lemma classifier_total_with_hysteresis_witness :
  is_label (Android.determinePhysicalOrientation "landscape-primary" 3 (-4) 9) /\
  Android.determinePhysicalOrientation "landscape-primary" 3 (-4) 9
  = "landscape-primary"%string /\
  Android.determinePhysicalOrientation "portrait-secondary" 0 0 0
  = "portrait-secondary"%string /\
  IOS.determineOrientation IOS.Device.landscapeLeft (IOS.mkAcceleration 0 0 (-1))
  = IOS.Device.landscapeLeft.
Proof.
  destruct classifier_total_with_hysteresis as (HA & HI & _).
  assert (L1 : is_label "landscape-primary") by (unfold is_label; tauto).
  assert (L2 : is_label "portrait-secondary") by (unfold is_label; tauto).
  split; [|split; [|split]].
  - exact (proj1 (HA "landscape-primary"%string 3 (-4) 9 L1)).
  - apply (proj2 (HA "landscape-primary"%string 3 (-4) 9 L1));
      vm_compute; discriminate.
  - apply (proj2 (HA "portrait-secondary"%string 0 0 0 L2));
      vm_compute; discriminate.
  - apply (proj2 (HI IOS.Device.landscapeLeft (IOS.mkAcceleration 0 0 (-1))));
      vm_compute; discriminate.
Defined.

(** C3, as stated, fails on iOS: with [x = 0.6] and [y = -0.9] both
    magnitudes exceed the threshold and [|y| > |x|], yet the iOS classifier
    answers landscape, while the Android classifier answers portrait on the
    same tilt in its own units. *)
Lemma axis_priority_ios_counterexample :
  (IOS.threshold < Qabs (3 # 5))%Q /\
  (IOS.threshold < Qabs (- (9 # 10)))%Q /\
  (Qabs (3 # 5) < Qabs (- (9 # 10)))%Q /\
  IOS.mapDeviceOrientationToString
    (IOS.determineOrientation IOS.Device.portrait
       (IOS.mkAcceleration (3 # 5) (- (9 # 10)) 0))
  = "landscape-secondary"%string /\
  ~ is_portrait
      (IOS.mapDeviceOrientationToString
         (IOS.determineOrientation IOS.Device.portrait
            (IOS.mkAcceleration (3 # 5) (- (9 # 10)) 0))).
Proof.
  repeat split; try (vm_compute; reflexivity).
  vm_compute. intros [H | H]; discriminate H.
Qed.

(** C3 (amended) — The Android classifier follows the axis-priority
    algorithm: landscape when [|x|] exceeds the threshold and [|x| > |y|]
    (sign of x selecting primary or secondary), otherwise portrait when
    [|y|] exceeds the threshold (sign of y selecting), otherwise the
    previous label; so a sample with both magnitudes above the threshold
    and [|y| > |x|] is portrait.  The iOS classifier tests x first and
    never compares [|x|] with [|y|]: landscape when [|x|] exceeds the
    threshold, otherwise portrait when [|y|] exceeds it, otherwise the
    previous orientation. *)
Theorem axis_priority_per_platform :
  (forall (prev : string) (x y z : Q),
      let r := Android.determinePhysicalOrientation prev x y z in
      ((Android.threshold < Qabs x)%Q -> (Qabs y < Qabs x)%Q ->
       is_landscape r /\
       ((0 < x)%Q -> r = "landscape-primary"%string) /\
       ((x < 0)%Q -> r = "landscape-secondary"%string)) /\
      (~ ((Android.threshold < Qabs x)%Q /\ (Qabs y < Qabs x)%Q) ->
       (Android.threshold < Qabs y)%Q ->
       is_portrait r /\
       ((0 < y)%Q -> r = "portrait-primary"%string) /\
       ((y < 0)%Q -> r = "portrait-secondary"%string)) /\
      (~ ((Android.threshold < Qabs x)%Q /\ (Qabs y < Qabs x)%Q) ->
       (Qabs y <= Android.threshold)%Q -> r = prev) /\
      ((Android.threshold < Qabs x)%Q -> (Android.threshold < Qabs y)%Q ->
       (Qabs x < Qabs y)%Q -> is_portrait r)) /\
  (forall (prev : IOS.Device.t) (a : IOS.CMAcceleration),
      let d := IOS.determineOrientation prev a in
      let r := IOS.mapDeviceOrientationToString d in
      ((IOS.threshold < Qabs (IOS.x a))%Q ->
       is_landscape r /\
       ((IOS.threshold < IOS.x a)%Q -> r = "landscape-secondary"%string) /\
       ((IOS.x a < - IOS.threshold)%Q -> r = "landscape-primary"%string)) /\
      ((Qabs (IOS.x a) <= IOS.threshold)%Q -> (IOS.threshold < Qabs (IOS.y a))%Q ->
       is_portrait r /\
       ((IOS.y a < - IOS.threshold)%Q -> r = "portrait-primary"%string) /\
       ((IOS.threshold < IOS.y a)%Q -> r = "portrait-secondary"%string)) /\
      ((Qabs (IOS.x a) <= IOS.threshold)%Q -> (Qabs (IOS.y a) <= IOS.threshold)%Q ->
       d = prev)).
Proof.
  split.
  - intros prev x y z r. subst r. repeat apply conj.
    + intros Ht Hxy.
      destruct (android_landscape_branch prev x y z Ht Hxy) as (H1 & H2 & H3).
      auto.
    + intros Hn Hy.
      destruct (android_portrait_branch prev x y z Hn Hy) as (H1 & H2 & H3).
      auto.
    + apply android_fallback_branch.
    + intros _ Hy Hxy.
      assert (Hn : ~ ((Android.threshold < Qabs x)%Q /\ (Qabs y < Qabs x)%Q))
        by (intros [_ H]; lra).
      exact (proj2 (proj2 (android_portrait_branch prev x y z Hn Hy))).
  - intros prev a d r. subst r d. repeat apply conj.
    + intros Ht.
      destruct (ios_landscape_branch prev a Ht) as (H1 & H2 & H3).
      split; [exact H3|]. split; intro H; [apply H1 | apply H2]; exact H.
    + intros Hx Hy.
      destruct (ios_portrait_branch prev a Hx Hy) as (H1 & H2 & H3).
      split; [exact H3|]. split; intro H; [apply H1 | apply H2]; exact H.
    + apply ios_below_threshold.
Qed.

Lemma axis_priority_per_platform_witness :
  is_portrait (Android.determinePhysicalOrientation "landscape-primary" 6 (-9) 0) /\
  is_landscape
    (IOS.mapDeviceOrientationToString
       (IOS.determineOrientation IOS.Device.portrait
          (IOS.mkAcceleration (3 # 5) (- (9 # 10)) 0))).
Proof.
  destruct axis_priority_per_platform as [HA HI]. split.
  - apply (proj2 (proj2 (proj2 (HA "landscape-primary"%string 6 (-9) 0))));
      vm_compute; reflexivity.
  - apply (proj1 (HI IOS.Device.portrait (IOS.mkAcceleration (3 # 5) (- (9 # 10)) 0))).
    vm_compute; reflexivity.
Defined.

(** On any tilt whose x component is positive and dominant, the Android
    classifier (raw units, [g] units per unit of gravity) and the iOS
    classifier with its label mapping return opposite landscape labels. *)
Lemma landscape_sign_disagreement
  (g : Q) (prevA : string) (prevI : IOS.Device.t) (a : IOS.CMAcceleration) :
  (0 < g)%Q ->
  (Android.threshold < g * IOS.x a)%Q ->
  (IOS.threshold < IOS.x a)%Q ->
  (Qabs (g * IOS.y a) < g * IOS.x a)%Q ->
  Android.determinePhysicalOrientation prevA
    (g * IOS.x a) (g * IOS.y a) (g * IOS.z a) = "landscape-primary"%string /\
  IOS.mapDeviceOrientationToString (IOS.determineOrientation prevI a)
  = "landscape-secondary"%string.
Proof.
  intros Hg HA HI Hy.
  assert (Hx : (0 < IOS.x a)%Q) by (unfold IOS.threshold in HI; lra).
  assert (Hgx : (0 < g * IOS.x a)%Q) by (unfold Android.threshold in HA; lra).
  assert (Habs : (Qabs (g * IOS.x a) == g * IOS.x a)%Q) by (apply Qabs_pos; lra).
  split.
  - apply (android_landscape_branch prevA (g * IOS.x a) (g * IOS.y a) (g * IOS.z a));
      try lra.
  - assert (Ht : (IOS.threshold < Qabs (IOS.x a))%Q)
      by (rewrite Qabs_pos; lra).
    apply (ios_landscape_branch prevI a Ht). exact HI.
Qed.

(** C9 — The two native classifiers are not extensionally equivalent on
    landscape sign: for the sample [x = 1 g, y = 0, z = 0] (9.80665 in
    Android's raw units) the Android classifier returns landscape-primary
    and the iOS classifier with its device-orientation mapping returns
    landscape-secondary, whatever the previous values. *)
Theorem classifiers_disagree_on_landscape_sign :
  exists (g : Q) (a : IOS.CMAcceleration),
    (0 < g)%Q /\ (IOS.threshold < IOS.x a)%Q /\
    forall (prevA : string) (prevI : IOS.Device.t),
      let android :=
        Android.determinePhysicalOrientation prevA
          (g * IOS.x a) (g * IOS.y a) (g * IOS.z a) in
      let ios := IOS.mapDeviceOrientationToString (IOS.determineOrientation prevI a) in
      is_landscape android /\ is_landscape ios /\ android <> ios /\
      android = "landscape-primary"%string /\ ios = "landscape-secondary"%string.
Proof.
  exists (980665 # 100000)%Q, (IOS.mkAcceleration 1 0 0).
  split; [reflexivity|]. split; [reflexivity|].
  intros prevA prevI android ios.
  destruct (landscape_sign_disagreement (980665 # 100000) prevA prevI
              (IOS.mkAcceleration 1 0 0)) as [H1 H2];
    try (vm_compute; reflexivity).
  subst android ios. rewrite H1, H2. unfold is_landscape.
  repeat split; try tauto. discriminate.
Qed.

(** ** Lock detection *)

(** C1 — Every call to [isOrientationLocked] resolves with a LockStatus:
    [locked] is true exactly when motion tracking is active and the
    tracker's current physical orientation differs from the UI-reported
    orientation; [physicalOrientation] is present exactly when tracking is
    active; when tracking is inactive [locked] is false and
    [uiOrientation] is still reported.  The call changes nothing and
    emits nothing.  Android and iOS. *)
Theorem isOrientationLocked_lock_status :
  (forall w : Android.World,
      let r := Android.isOrientationLocked w in
      world r = w /\ events r = [] /\
      exists o,
        value r = Resolve o /\
        lock_status (Android.isTrackingMotion (Android.this w))
          (Android.currentPhysicalOrientation (Android.this w))
          (value (Android.getCurrentOrientationType w)) o) /\
  (forall w : IOS.World,
      let r := IOS.isOrientationLocked w in
      world r = w /\ events r = [] /\
      exists o,
        value r = Resolve o /\
        lock_status (IOS.isTrackingWithMotion (IOS.this w))
          (IOS.mapDeviceOrientationToString
             (IOS.currentDeviceOrientation (IOS.this w)))
          (value (IOS.getCurrentOrientationType w)) o).
Proof.
  split; intros w r.
  - destruct (android_isOrientationLocked_spec w) as (H1 & H2 & _ & H3). auto.
  - destruct (ios_isOrientationLocked_spec w) as (H1 & H2 & _ & H3). auto.
Qed.

(** ** The tracker *)

(** C4 — Deduplication.  For every finite sequence of samples fed to the
    tracker, from any state, no two consecutive emitted events carry the
    same payload; and samples in a row that classify to the same label
    emit at most one event.  Android and iOS. *)
Theorem tracker_deduplicates :
  (forall (es : list Android.SensorEvent) (w : Android.World),
      no_consecutive_duplicates (map payload (snd (Android.feed es w)))) /\
  (forall (ds : list (option IOS.CMAcceleration)) (w : IOS.World),
      no_consecutive_duplicates (map payload (snd (IOS.feed ds w)))) /\
  (forall (e : Android.SensorEvent) (es : list Android.SensorEvent)
          (w : Android.World) (label : string),
      Android.sensorType e = Android.TYPE_ACCELEROMETER ->
      Android.determinePhysicalOrientation
        (Android.currentPhysicalOrientation (Android.this w))
        (Android.values0 e) (Android.values1 e) (Android.values2 e) = label ->
      Forall (fun e' =>
                Android.determinePhysicalOrientation label
                  (Android.values0 e') (Android.values1 e') (Android.values2 e')
                = label) es ->
      (length (snd (Android.feed (e :: es) w)) <= 1)%nat) /\
  (forall (a : IOS.CMAcceleration) (ds : list (option IOS.CMAcceleration))
          (w : IOS.World) (d : IOS.Device.t),
      IOS.determineOrientation (IOS.currentDeviceOrientation (IOS.this w)) a = d ->
      Forall (fun d' =>
                match d' with
                | Some a' => IOS.determineOrientation d a' = d
                | None => True
                end) ds ->
      (length (snd (IOS.feed (Some a :: ds) w)) <= 1)%nat).
Proof.
  split; [|split; [|split]].
  - intros es w.
    apply (fresh_chain_no_duplicates _ _ (android_feed_chain es w)).
  - intros ds w.
    apply (fresh_chain_no_duplicates _ _ (ios_feed_chain ds w)).
  - intros e es w label Ht Hl Hes. cbn [Android.feed snd fst].
    destruct (android_onSensorChanged_spec w e Ht) as (Hcur & _).
    rewrite Hl in Hcur.
    rewrite android_feed_same_label by (rewrite Hcur; exact Hes).
    cbn [snd fst]. rewrite app_nil_r.
    destruct (android_onSensorChanged_chain w e) as [[He _] | (l & He & _)];
      rewrite He; simpl; lia.
  - intros a ds w d Hd Hds. cbn [IOS.feed snd fst].
    destruct (ios_accelerometerHandler_spec w a) as (Hcur & _).
    rewrite Hd in Hcur.
    rewrite ios_feed_same_label by (rewrite Hcur; exact Hds).
    cbn [snd fst]. rewrite app_nil_r.
    destruct (ios_accelerometerHandler_chain w (Some a))
      as [[He _] | (l & He & _)];
      rewrite He; simpl; lia.
Qed.

Lemma tracker_deduplicates_witness :
  (length (snd (Android.feed
                  [Android.mkSensorEvent Android.TYPE_ACCELEROMETER 9 1 0;
                   Android.mkSensorEvent Android.TYPE_ACCELEROMETER 8 (-2) 1;
                   Android.mkSensorEvent Android.TYPE_ACCELEROMETER 1 1 9]
                  (Android.boot android_phone))) <= 1)%nat /\
  (length (snd (IOS.feed
                  [Some (IOS.mkAcceleration 1 0 0);
                   Some (IOS.mkAcceleration (9 # 10) (3 # 10) 0);
                   None]
                  (IOS.boot ios_phone))) <= 1)%nat.
Proof.
  destruct tracker_deduplicates as (_ & _ & HA & HI). split.
  - apply (HA _ _ _ "landscape-primary"%string).
    + reflexivity.
    + vm_compute. reflexivity.
    + repeat constructor.
  - apply (HI _ _ _ IOS.Device.landscapeLeft).
    + vm_compute. reflexivity.
    + repeat constructor.
Defined.

(** C5, as stated, fails on both platforms: a first sample that classifies
    to the initial default (portrait-primary) differs from the absent
    [lastNotified], yet no event is emitted and [lastNotified] stays
    absent. *)
Lemma onSample_initial_default_counterexample :
  (Android.determinePhysicalOrientation
     (Android.currentPhysicalOrientation (Android.this (Android.boot android_phone)))
     0 (981 # 100) 0 = "portrait-primary"%string /\
   Some "portrait-primary"%string
   <> Android.lastNotifiedOrientation (Android.this (Android.boot android_phone)) /\
   events (Android.onSensorChanged
             (Android.mkSensorEvent Android.TYPE_ACCELEROMETER 0 (981 # 100) 0)
             (Android.boot android_phone)) = []) /\
  (IOS.mapDeviceOrientationToString
     (IOS.determineOrientation
        (IOS.currentDeviceOrientation (IOS.this (IOS.boot ios_phone)))
        (IOS.mkAcceleration 0 (-1) 0)) = "portrait-primary"%string /\
   Some "portrait-primary"%string
   <> IOS.lastNotifiedOrientation (IOS.this (IOS.boot ios_phone)) /\
   events (IOS.accelerometerHandler (Some (IOS.mkAcceleration 0 (-1) 0))
             (IOS.boot ios_phone)) = []).
Proof.
  split; (split; [vm_compute; reflexivity|]);
    (split; [vm_compute; discriminate | vm_compute; reflexivity]).
Qed.

(** C5 (amended) — The tracker's per-sample step: after a sample the
    current physical orientation is the classified label; a change event
    with payload [{type: label}] is emitted, and [lastNotified] set to the
    label, exactly when the label differs from both the previous current
    physical orientation and [lastNotified]; otherwise nothing is emitted
    and [lastNotified] is unchanged.  Android and iOS. *)
Theorem onSample_step_contract :
  (forall (w : Android.World) (e : Android.SensorEvent),
      Android.sensorType e = Android.TYPE_ACCELEROMETER ->
      let cur := Android.currentPhysicalOrientation (Android.this w) in
      let last := Android.lastNotifiedOrientation (Android.this w) in
      let label :=
        Android.determinePhysicalOrientation cur
          (Android.values0 e) (Android.values1 e) (Android.values2 e) in
      let r := Android.onSensorChanged e w in
      Android.currentPhysicalOrientation (Android.this (world r)) = label /\
      (label <> cur /\ Some label <> last ->
       events r = [change_event label] /\
       Android.lastNotifiedOrientation (Android.this (world r)) = Some label) /\
      (label = cur \/ Some label = last ->
       events r = [] /\
       Android.lastNotifiedOrientation (Android.this (world r)) = last)) /\
  (forall (w : IOS.World) (a : IOS.CMAcceleration),
      let cur := IOS.currentDeviceOrientation (IOS.this w) in
      let last := IOS.lastNotifiedOrientation (IOS.this w) in
      let d := IOS.determineOrientation cur a in
      let label := IOS.mapDeviceOrientationToString d in
      let r := IOS.accelerometerHandler (Some a) w in
      IOS.currentDeviceOrientation (IOS.this (world r)) = d /\
      (d <> cur /\ Some label <> last ->
       events r = [change_event label] /\
       IOS.lastNotifiedOrientation (IOS.this (world r)) = Some label) /\
      (d = cur \/ Some label = last ->
       events r = [] /\
       IOS.lastNotifiedOrientation (IOS.this (world r)) = last)).
Proof.
  split.
  - intros w e Ht cur last label r.
    destruct (android_onSensorChanged_spec w e Ht) as (H1 & _ & _ & H2 & H3).
    auto.
  - intros w a cur last d label r.
    destruct (ios_accelerometerHandler_spec w a) as (H1 & _ & _ & H2 & H3).
    auto.
Qed.

Lemma onSample_step_contract_witness :
  events (Android.onSensorChanged
            (Android.mkSensorEvent Android.TYPE_ACCELEROMETER 9 1 0)
            (Android.boot android_phone))
  = [change_event "landscape-primary"] /\
  events (IOS.accelerometerHandler (Some (IOS.mkAcceleration 0 (-1) 0))
            (IOS.boot ios_phone)) = [].
Proof.
  destruct onSample_step_contract as [HA HI]. split.
  - refine (proj1 (proj1 (proj2 (HA (Android.boot android_phone)
             (Android.mkSensorEvent Android.TYPE_ACCELEROMETER 9 1 0) _)) _)).
    + reflexivity.
    + split; vm_compute; discriminate.
  - refine (proj1 (proj2 (proj2 (HI (IOS.boot ios_phone)
             (IOS.mkAcceleration 0 (-1) 0))) _)).
    left. vm_compute. reflexivity.
Defined.

(** ** Mutual exclusion of the two emission paths *)



Lemma bind_modify (W A : Type) (f : W -> W) (m : Action W A) (w : W) :
  bind (modify f) (fun _ => m) w = m (f w).
Proof.
  unfold bind, modify. cbn [fst snd app].
  destruct (m (f w)) as [[a w'] ev]. reflexivity.
Qed.

Lemma android_step_configurationChanged (w : Android.World) (o r : Z) :
  Android.step (Android.ConfigurationChanged o r) w
  = Android.handleOnConfigurationChanged o (Android.set_configuration o r w).
Proof. unfold Android.step. apply bind_modify. Qed.








(** ** Starting twice *)

(** C7, as stated, fails from a state without an accelerometer: both calls
    return without subscribing, so no sensor subscription is established,
    on Android and on iOS. *)
Lemma start_twice_without_accelerometer_counterexample :
  (Android.reachable (Android.boot android_phone_without_accelerometer) /\
   Android.sensorListeners
     (Android.host (android_started_twice
                      (Android.boot android_phone_without_accelerometer))) <> 1%nat /\
   Android.isTrackingMotion
     (Android.this (android_started_twice
                      (Android.boot android_phone_without_accelerometer))) = false) /\
  (IOS.reachable (IOS.boot ios_phone_without_accelerometer) /\
   IOS.accelerometerUpdates
     (IOS.host (ios_started_twice (IOS.boot ios_phone_without_accelerometer))) <> 1%nat /\
   IOS.isTrackingWithMotion
     (IOS.this (ios_started_twice (IOS.boot ios_phone_without_accelerometer))) = false).
Proof.
  split;
    (split; [constructor; reflexivity
            | split; vm_compute; [discriminate | reflexivity]]).
Qed.

(** C7 (amended) — Starting motion tracking is idempotent.  From any
    reachable state, of two [startOrientationTracking({bypassOrientationLock:
    true})] calls in a row the second is a no-op: both resolve and the
    world after the second call is the world after the first.  When an
    accelerometer is available, tracking is then active with exactly one
    sensor subscription; when none is available, tracking stays inactive
    and there is no subscription.  Android and iOS. *)
Theorem start_tracking_idempotent :
  (forall w : Android.World,
      Android.reachable w ->
      let r1 := Android.startOrientationTracking bypass_call w in
      let r2 := Android.startOrientationTracking bypass_call (world r1) in
      value r1 = Resolve [] /\ value r2 = Resolve [] /\
      world r2 = world r1 /\
      (Android.accelerometer (Android.this w) = true ->
       Android.isTrackingMotion (Android.this (world r2)) = true /\
       Android.sensorListeners (Android.host (world r2)) = 1%nat) /\
      (Android.accelerometer (Android.this w) = false ->
       Android.isTrackingMotion (Android.this (world r2)) = false /\
       Android.sensorListeners (Android.host (world r2)) = 0%nat)) /\
  (forall w : IOS.World,
      IOS.reachable w ->
      let r1 := IOS.startOrientationTracking bypass_call w in
      let r2 := IOS.startOrientationTracking bypass_call (world r1) in
      value r1 = Resolve [] /\ value r2 = Resolve [] /\
      world r2 = world r1 /\
      (IOS.isAccelerometerAvailable (IOS.host w) = true ->
       IOS.isTrackingWithMotion (IOS.this (world r2)) = true /\
       IOS.accelerometerUpdates (IOS.host (world r2)) = 1%nat) /\
      (IOS.isTrackingWithMotion (IOS.this w) = false ->
       IOS.isAccelerometerAvailable (IOS.host w) = false ->
       IOS.isTrackingWithMotion (IOS.this (world r2)) = false /\
       IOS.accelerometerUpdates (IOS.host (world r2)) = 0%nat)).
Proof.
  split.
  - intros w Hw r1 r2.
    destruct (android_start_twice w (android_reachable_inv w Hw))
      as (H1 & H2 & H3 & H4 & H5).
    repeat (split; [assumption|]). intro Hacc. apply (H5 Hacc).
  - intros w Hw r1 r2.
    destruct (ios_start_twice w (ios_reachable_inv w Hw))
      as (H1 & H2 & H3 & H4 & H5).
    repeat (split; [assumption|]). exact H5.
Qed.

Lemma start_tracking_idempotent_witness :
  Android.sensorListeners
    (Android.host (android_started_twice (Android.boot android_phone))) = 1%nat /\
  IOS.accelerometerUpdates
    (IOS.host (ios_started_twice (IOS.boot ios_phone))) = 1%nat.
Proof.
  destruct start_tracking_idempotent as [HA HI]. split.
  - refine (proj2 (proj1 (proj2 (proj2 (proj2
             (HA (Android.boot android_phone) _)))) _)).
    + constructor. reflexivity.
    + reflexivity.
  - refine (proj2 (proj1 (proj2 (proj2 (proj2
             (HI (IOS.boot ios_phone) _)))) _)).
    + constructor. reflexivity.
    + reflexivity.
Defined.

(** ** Locking *)

Lemma getString_absent (call : JSObject) (key : string) :
  get key call = None -> getString call key = None.
Proof. unfold getString. now intros ->. Qed.

(** C8 — A lock request without the [orientation] field is rejected with
    the message "Orientation parameter is required" and has no effect; a
    request that carries it resolves when the platform call succeeds (on
    iOS no platform call can fail).  Android and iOS. *)
Theorem lock_requires_orientation :
  (forall (w : Android.World) (call : JSObject),
      get "orientation" call = None ->
      exists message,
        Android.lock call w = (Reject message, w, []) /\
        message = "Orientation parameter is required"%string /\
        message <> ""%string) /\
  (forall (w : Android.World) (call : JSObject) (s : string),
      getString call "orientation" = Some s ->
      Android.setRequestedOrientationThrows (Android.host w) = false ->
      value (Android.lock call w) = Resolve []) /\
  (forall (w : IOS.World) (call : JSObject),
      get "orientation" call = None ->
      exists message,
        IOS.lock call w = (Reject message, w, []) /\
        message = "Orientation parameter is required"%string /\
        message <> ""%string) /\
  (forall (w : IOS.World) (call : JSObject) (s : string),
      getString call "orientation" = Some s ->
      value (IOS.lock call w) = Resolve []).
Proof.
  split; [|split; [|split]].
  - intros w call H. eexists. split; [|split; [reflexivity | discriminate]].
    apply android_lock_without_orientation. now apply getString_absent.
  - intros w call s H Hth.
    apply (android_lock_with_orientation w call s H Hth).
  - intros w call H. eexists. split; [|split; [reflexivity | discriminate]].
    apply ios_lock_without_orientation. now apply getString_absent.
  - intros w call s H.
    apply (ios_lock_with_orientation w call s H).
Qed.

Lemma lock_requires_orientation_witness :
  (exists message,
      Android.lock bypass_call (Android.boot android_phone)
      = (Reject message, Android.boot android_phone, []) /\
      message = "Orientation parameter is required"%string /\
      message <> ""%string) /\
  value (Android.lock [("orientation"%string, JSString "portrait")]
           (Android.boot android_phone)) = Resolve [] /\
  (exists message,
      IOS.lock bypass_call (IOS.boot ios_phone)
      = (Reject message, IOS.boot ios_phone, []) /\
      message = "Orientation parameter is required"%string /\
      message <> ""%string) /\
  value (IOS.lock [("orientation"%string, JSString "portrait")]
           (IOS.boot ios_phone)) = Resolve [].
Proof.
  destruct lock_requires_orientation as (HA1 & HA2 & HI1 & HI2).
  split; [|split; [|split]].
  - apply HA1. reflexivity.
  - apply (HA2 _ _ "portrait"%string); reflexivity.
  - apply HI1. reflexivity.
  - apply (HI2 _ _ "portrait"%string); reflexivity.
Defined.

(** ** The Android UI path compares coarse categories *)




(** * Further properties of the plugin code *)

(** The classifiers are kept folded from here on: the properties below are
    about the plugin's control flow, and use the classifier lemmas above
    where its result matters. *)
Arguments Android.determinePhysicalOrientation : simpl never.
Arguments IOS.determineOrientation : simpl never.

(** ** Stopping, unlocking and the subscription count *)

Lemma android_discard (A : Type) (m : Action Android.World A) (w : Android.World) :
  Android.discard m w = (tt, world (m w), events (m w)).
Proof.
  unfold Android.discard, bind, ret, world, events. cbn [fst snd].
  now rewrite app_nil_r.
Qed.

Lemma android_step_sensorChanged (w : Android.World) (e : Android.SensorEvent) :
  Android.sensorListeners (Android.host w) <> 0%nat ->
  Android.step (Android.SensorChanged e) w = Android.onSensorChanged e w.
Proof.
  intro Hn. unfold Android.step, bind, gets. cbn [fst snd app].
  destruct (Android.sensorListeners (Android.host w)); [now elim Hn|].
  cbn [Nat.ltb Nat.leb].
  destruct (Android.onSensorChanged e w) as [[[] w'] ev]. reflexivity.
Qed.

Lemma android_configurationChanged_result (w : Android.World) (o : Z) :
  Android.isTrackingMotion (Android.this w) = false ->
  Android.currentOrientation (Android.this w) <> o ->
  Android.handleOnConfigurationChanged o w
  = (tt, Android.set_currentOrientation o w,
     [change_event (value (Android.getCurrentOrientationType w))]).
Proof.
  destruct w as [p h]. simpl. intros Ht Hne. apply Z.eqb_neq in Hne.
  android_exec. rewrite Ht. simpl. rewrite Hne. reflexivity.
Qed.

Lemma android_ui_label (o r : Z) :
  is_label
    (if (o =? Android.ORIENTATION_PORTRAIT)%Z
     then if (r =? Android.ROTATION_0)%Z
          then "portrait-primary"%string else "portrait-secondary"%string
     else if (r =? Android.ROTATION_90)%Z
          then "landscape-primary"%string else "landscape-secondary"%string).
Proof. unfold is_label. destruct (_ =? _)%Z; destruct (_ =? _)%Z; tauto. Qed.


(** X1 — Stopping releases the sensor.  From any reachable state
    [stopOrientationTracking] resolves, emits nothing, leaves tracking
    inactive with no sensor subscription, and keeps the tracker's
    orientation memory; a second stop changes nothing.  Android and iOS. *)
Theorem stop_releases_subscription :
  (forall w : Android.World,
      Android.reachable w ->
      let r := Android.stopOrientationTracking w in
      value r = Resolve [] /\ events r = [] /\
      Android.isTrackingMotion (Android.this (world r)) = false /\
      Android.sensorListeners (Android.host (world r)) = 0%nat /\
      Android.currentPhysicalOrientation (Android.this (world r))
      = Android.currentPhysicalOrientation (Android.this w) /\
      Android.lastNotifiedOrientation (Android.this (world r))
      = Android.lastNotifiedOrientation (Android.this w) /\
      Android.stopOrientationTracking (world r) = (Resolve [], world r, [])) /\
  (forall w : IOS.World,
      IOS.reachable w ->
      let r := IOS.stopOrientationTracking w in
      value r = Resolve [] /\ events r = [] /\
      IOS.isTrackingWithMotion (IOS.this (world r)) = false /\
      IOS.accelerometerUpdates (IOS.host (world r)) = 0%nat /\
      IOS.currentDeviceOrientation (IOS.this (world r))
      = IOS.currentDeviceOrientation (IOS.this w) /\
      IOS.lastNotifiedOrientation (IOS.this (world r))
      = IOS.lastNotifiedOrientation (IOS.this w) /\
      IOS.stopOrientationTracking (world r) = (Resolve [], world r, [])).
Proof.
  split.
  - intros w Hw r. subst r. apply android_reachable_inv in Hw.
    destruct w as [[co sm acc tr cur last] [hco dr ss da ro th n]].
    unfold android_inv in Hw. simpl in Hw. android_exec.
    destruct tr, sm, acc; simpl in *;
      intuition (try discriminate; try congruence; auto).
  - intros w Hw r. subst r. apply ios_reachable_inv in Hw.
    destruct w as [[mm cur tr last] [dev io av n]].
    unfold ios_inv in Hw. simpl in Hw. ios_exec.
    destruct tr, mm; simpl in *;
      intuition (try discriminate; try congruence; auto).
Qed.

Lemma stop_releases_subscription_witness :
  Android.sensorListeners
    (Android.host (world (Android.stopOrientationTracking
                            (android_started_twice (Android.boot android_phone)))))
  = 0%nat /\
  IOS.accelerometerUpdates
    (IOS.host (world (IOS.stopOrientationTracking
                        (ios_started_twice (IOS.boot ios_phone)))))
  = 0%nat.
Proof.
  destruct stop_releases_subscription as [HA HI]. split.
  - refine (proj1 (proj2 (proj2 (proj2
             (HA (android_started_twice (Android.boot android_phone)) _))))).
    unfold android_started_twice.
    apply (Android.reachable_step _
             (Android.CallStartOrientationTracking bypass_call)
             (Android.reachable_step _
                (Android.CallStartOrientationTracking bypass_call)
                (Android.reachable_boot android_phone eq_refl))).
  - refine (proj1 (proj2 (proj2 (proj2
             (HI (ios_started_twice (IOS.boot ios_phone)) _))))).
    unfold ios_started_twice.
    apply (IOS.reachable_step _
             (IOS.CallStartOrientationTracking bypass_call)
             (IOS.reachable_step _
                (IOS.CallStartOrientationTracking bypass_call)
                (IOS.reachable_boot ios_phone eq_refl))).
Defined.

(** X2 — Never more than one subscription.  In every reachable state the
    plugin holds at most one sensor subscription, and it holds one exactly
    when its tracking flag is set; on Android tracking is only ever active
    with a non-null accelerometer.  Android and iOS. *)
Theorem at_most_one_subscription :
  (forall w : Android.World,
      Android.reachable w ->
      (Android.sensorListeners (Android.host w) <= 1)%nat /\
      (Android.sensorListeners (Android.host w) = 1%nat <->
       Android.isTrackingMotion (Android.this w) = true) /\
      (Android.isTrackingMotion (Android.this w) = true ->
       Android.accelerometer (Android.this w) = true)) /\
  (forall w : IOS.World,
      IOS.reachable w ->
      (IOS.accelerometerUpdates (IOS.host w) <= 1)%nat /\
      (IOS.accelerometerUpdates (IOS.host w) = 1%nat <->
       IOS.isTrackingWithMotion (IOS.this w) = true)).
Proof.
  split.
  - intros w Hw. apply android_reachable_inv in Hw.
    destruct Hw as (Ht & Hf & _ & _).
    destruct (Android.isTrackingMotion (Android.this w)).
    + destruct (Ht eq_refl) as [H1 H2]. rewrite H1.
      split; [lia|]. split; [tauto | auto].
    + rewrite (Hf eq_refl). split; [lia|].
      split; [split; discriminate | discriminate].
  - intros w Hw. apply ios_reachable_inv in Hw.
    destruct Hw as (Ht & Hf & _).
    destruct (IOS.isTrackingWithMotion (IOS.this w)).
    + destruct (Ht eq_refl) as [H1 H2]. rewrite H1. split; [lia | tauto].
    + rewrite (Hf eq_refl). split; [lia|]. split; discriminate.
Qed.

Lemma at_most_one_subscription_witness :
  (Android.sensorListeners
     (Android.host (fst (Android.run
                           [Android.CallLock
                              [("orientation"%string, JSString "portrait");
                               ("bypassOrientationLock"%string, JSBool true)];
                            Android.CallStartOrientationTracking bypass_call]
                           (Android.boot android_phone)))) <= 1)%nat /\
  (IOS.accelerometerUpdates
     (IOS.host (fst (IOS.run
                       [IOS.CallLock
                          [("orientation"%string, JSString "portrait");
                           ("bypassOrientationLock"%string, JSBool true)];
                        IOS.CallStartOrientationTracking bypass_call]
                       (IOS.boot ios_phone)))) <= 1)%nat.
Proof.
  destruct at_most_one_subscription as [HA HI]. split.
  - refine (proj1 (HA _ _)).
    apply android_run_reachable. constructor. reflexivity.
  - refine (proj1 (HI _ _)).
    do 2 apply IOS.reachable_step. constructor. reflexivity.
Defined.

(** X3 — Unlock always stops tracking.  On Android [unlock] stops motion
    tracking before it calls the host, so from any reachable state
    tracking is inactive and nothing is subscribed afterwards whether the
    call resolves (the requested orientation is then UNSPECIFIED) or
    rejects with "Could not unlock orientation" because the host threw
    (the requested orientation is then unchanged).  On iOS it always
    resolves.  No event is emitted. *)
Theorem unlock_stops_tracking :
  (forall w : Android.World,
      Android.reachable w ->
      let r := Android.unlock w in
      events r = [] /\
      Android.isTrackingMotion (Android.this (world r)) = false /\
      Android.sensorListeners (Android.host (world r)) = 0%nat /\
      (Android.setRequestedOrientationThrows (Android.host w) = false ->
       value r = Resolve [] /\
       Android.requestedOrientation (Android.host (world r))
       = Android.SCREEN_ORIENTATION_UNSPECIFIED) /\
      (Android.setRequestedOrientationThrows (Android.host w) = true ->
       value r = Reject "Could not unlock orientation" /\
       Android.requestedOrientation (Android.host (world r))
       = Android.requestedOrientation (Android.host w))) /\
  (forall w : IOS.World,
      IOS.reachable w ->
      let r := IOS.unlock w in
      value r = Resolve [] /\ events r = [] /\
      IOS.isTrackingWithMotion (IOS.this (world r)) = false /\
      IOS.accelerometerUpdates (IOS.host (world r)) = 0%nat).
Proof.
  split.
  - intros w Hw r. subst r. apply android_reachable_inv in Hw.
    destruct w as [[co sm acc tr cur last] [hco dr ss da ro th n]].
    unfold android_inv in Hw. simpl in Hw. android_exec.
    destruct tr, sm, acc, th; simpl in *;
      intuition (try discriminate; try congruence; auto).
  - intros w Hw r. subst r. apply ios_reachable_inv in Hw.
    destruct w as [[mm cur tr last] [dev io av n]].
    unfold ios_inv in Hw. simpl in Hw. ios_exec.
    destruct tr, mm; simpl in *;
      intuition (try discriminate; try congruence; auto).
Qed.

Lemma unlock_stops_tracking_witness :
  Android.isTrackingMotion
    (Android.this (world (Android.unlock
                            (android_started_twice (Android.boot android_phone)))))
  = false /\
  IOS.isTrackingWithMotion
    (IOS.this (world (IOS.unlock (ios_started_twice (IOS.boot ios_phone)))))
  = false.
Proof.
  destruct unlock_stops_tracking as [HA HI]. split.
  - refine (proj1 (proj2
             (HA (android_started_twice (Android.boot android_phone)) _))).
    unfold android_started_twice.
    apply (Android.reachable_step _
             (Android.CallStartOrientationTracking bypass_call)
             (Android.reachable_step _
                (Android.CallStartOrientationTracking bypass_call)
                (Android.reachable_boot android_phone eq_refl))).
  - refine (proj1 (proj2 (proj2
             (HI (ios_started_twice (IOS.boot ios_phone)) _)))).
    unfold ios_started_twice.
    apply (IOS.reachable_step _
             (IOS.CallStartOrientationTracking bypass_call)
             (IOS.reachable_step _
                (IOS.CallStartOrientationTracking bypass_call)
                (IOS.reachable_boot ios_phone eq_refl))).
Defined.

(** X4 — A failed lock has no effect.  When the host's
    [setRequestedOrientation] throws, Android [lock] rejects with "Could not
    lock orientation" and leaves the whole world as it was: in particular
    motion tracking is not started even if [bypassOrientationLock] was
    requested. *)
Theorem android_failed_lock_changes_nothing :
  forall (w : Android.World) (call : JSObject) (s : string),
    getString call "orientation" = Some s ->
    Android.setRequestedOrientationThrows (Android.host w) = true ->
    Android.lock call w = (Reject "Could not lock orientation", w, []).
Proof.
  intros w call s H Hth.
  destruct w as [[co sm acc tr cur last] [hco dr ss da ro th n]].
  simpl in Hth. subst th. android_exec. rewrite H. reflexivity.
Qed.

Lemma android_failed_lock_changes_nothing_witness :
  Android.lock
    [("orientation"%string, JSString "landscape");
     ("bypassOrientationLock"%string, JSBool true)]
    (Android.mkWorld Android.newPlugin
       (Android.mkHost Android.ORIENTATION_PORTRAIT Android.ROTATION_0 true true
          Android.SCREEN_ORIENTATION_UNSPECIFIED true 0))
  = (Reject "Could not lock orientation",
     Android.mkWorld Android.newPlugin
       (Android.mkHost Android.ORIENTATION_PORTRAIT Android.ROTATION_0 true true
          Android.SCREEN_ORIENTATION_UNSPECIFIED true 0), []).
Proof.
  apply (android_failed_lock_changes_nothing _ _ "landscape"%string);
    reflexivity.
Defined.

(** X5 — What a successful lock does to tracking.  With
    [bypassOrientationLock: true] a successful lock leaves tracking active
    with exactly one subscription when an accelerometer is available; with
    the option false or absent it leaves the tracker as it found it (it
    never stops a tracker that is running).  On Android only the requested
    orientation changes in that case; on iOS the call changes nothing at
    all, whatever orientation string it carries. *)
Theorem lock_and_tracking :
  (forall (w : Android.World) (call : JSObject) (s : string),
      Android.reachable w ->
      getString call "orientation" = Some s ->
      Android.setRequestedOrientationThrows (Android.host w) = false ->
      let r := Android.lock call w in
      Android.requestedOrientation (Android.host (world r))
      = Android.getOrientationConstant s /\
      (getBoolean call "bypassOrientationLock" false = true ->
       Android.accelerometer (Android.this w) = true ->
       Android.isTrackingMotion (Android.this (world r)) = true /\
       Android.sensorListeners (Android.host (world r)) = 1%nat) /\
      (getBoolean call "bypassOrientationLock" false = false ->
       Android.this (world r) = Android.this w /\
       Android.sensorListeners (Android.host (world r))
       = Android.sensorListeners (Android.host w))) /\
  (forall (w : IOS.World) (call : JSObject) (s : string),
      IOS.reachable w ->
      getString call "orientation" = Some s ->
      let r := IOS.lock call w in
      (getBoolean call "bypassOrientationLock" false = true ->
       IOS.isAccelerometerAvailable (IOS.host w) = true ->
       IOS.isTrackingWithMotion (IOS.this (world r)) = true /\
       IOS.accelerometerUpdates (IOS.host (world r)) = 1%nat) /\
      (getBoolean call "bypassOrientationLock" false = false ->
       world r = w)).
Proof.
  split.
  - intros w call s Hw H Hth r. subst r. apply android_reachable_inv in Hw.
    destruct w as [[co sm acc tr cur last] [hco dr ss da ro th n]].
    unfold android_inv in Hw. simpl in Hw, Hth. subst th.
    android_exec. rewrite H. simpl.
    destruct (getBoolean call "bypassOrientationLock" false); simpl;
      destruct tr, acc; simpl in *;
      intuition (try discriminate; try congruence; auto).
  - intros w call s Hw H r. subst r. apply ios_reachable_inv in Hw.
    destruct w as [[mm cur tr last] [dev io av n]].
    unfold ios_inv in Hw. simpl in Hw.
    ios_exec. rewrite H. simpl.
    destruct (getBoolean call "bypassOrientationLock" false); simpl;
      destruct tr, av; simpl in *;
      intuition (try discriminate; try congruence; auto).
Qed.

Lemma lock_and_tracking_witness :
  Android.sensorListeners
    (Android.host
       (world (Android.lock
                 [("orientation"%string, JSString "portrait");
                  ("bypassOrientationLock"%string, JSBool true)]
                 (Android.boot android_phone)))) = 1%nat /\
  world (IOS.lock [("orientation"%string, JSString "sideways")]
           (IOS.boot ios_phone))
  = IOS.boot ios_phone.
Proof.
  destruct lock_and_tracking as [HA HI]. split.
  - refine (proj2 (proj1 (proj2
             (HA (Android.boot android_phone) _ "portrait"%string _ _ _)) _ _));
      try reflexivity.
    constructor. reflexivity.
  - refine (proj2 (HI (IOS.boot ios_phone) _ "sideways"%string _ _) _);
      try reflexivity.
    constructor. reflexivity.
Defined.

Lemma android_unlock_facts (w : Android.World) :
  Android.isTrackingMotion (Android.this (world (Android.unlock w))) = false /\
  value (Android.getCurrentOrientationType (world (Android.unlock w)))
  = value (Android.getCurrentOrientationType w).
Proof.
  destruct w as [[co sm acc tr cur last] [hco dr ss da ro th n]].
  destruct tr, sm, th; split; reflexivity.
Qed.

Lemma ios_unlock_facts (w : IOS.World) :
  IOS.isTrackingWithMotion (IOS.this (world (IOS.unlock w))) = false /\
  value (IOS.getCurrentOrientationType (world (IOS.unlock w)))
  = value (IOS.getCurrentOrientationType w).
Proof.
  destruct w as [[mm cur tr last] [dev io av n]].
  destruct tr, mm; split; reflexivity.
Qed.

Lemma lock_status_inactive (physical ui : string) (o : JSObject) :
  lock_status false physical ui o ->
  get "locked" o = Some (JSBool false) /\
  has "physicalOrientation" o = false /\
  get "uiOrientation" o = Some (JSString ui).
Proof.
  intros (_ & Hp & _ & Hl & Hu). split; [now apply Hl|]. split; [|exact Hu].
  destruct (has "physicalOrientation" o); [|reflexivity].
  destruct Hp as [Hp _]. discriminate (Hp eq_refl).
Qed.

(** X6 — Unlock clears the lock status.  Whatever the state before,
    [isOrientationLocked] right after [unlock] resolves with [locked]
    false, no [physicalOrientation] key, and the UI orientation.  Android
    and iOS. *)
Theorem query_after_unlock :
  (forall w : Android.World,
      let w' := world (Android.unlock w) in
      exists o ui,
        value (Android.isOrientationLocked w') = Resolve o /\
        is_label ui /\
        get "locked" o = Some (JSBool false) /\
        has "physicalOrientation" o = false /\
        get "uiOrientation" o = Some (JSString ui) /\
        ui = value (Android.getCurrentOrientationType w)) /\
  (forall w : IOS.World,
      let w' := world (IOS.unlock w) in
      exists o ui,
        value (IOS.isOrientationLocked w') = Resolve o /\
        is_label ui /\
        get "locked" o = Some (JSBool false) /\
        has "physicalOrientation" o = false /\
        get "uiOrientation" o = Some (JSString ui) /\
        ui = value (IOS.getCurrentOrientationType w)).
Proof.
  split.
  - intros w w'. subst w'.
    destruct (android_unlock_facts w) as [Ht Hui].
    destruct (android_isOrientationLocked_spec (world (Android.unlock w)))
      as (_ & _ & Hl & o & Ho & Hs).
    cbv zeta in Hl. rewrite Ht in Hs. rewrite Hui in Hs, Hl.
    destruct (lock_status_inactive _ _ _ Hs) as (H1 & H2 & H3).
    exists o, (value (Android.getCurrentOrientationType w)). auto 7.
  - intros w w'. subst w'.
    destruct (ios_unlock_facts w) as [Ht Hui].
    destruct (ios_isOrientationLocked_spec (world (IOS.unlock w)))
      as (_ & _ & Hl & o & Ho & Hs).
    cbv zeta in Hl. rewrite Ht in Hs. rewrite Hui in Hs, Hl.
    destruct (lock_status_inactive _ _ _ Hs) as (H1 & H2 & H3).
    exists o, (value (IOS.getCurrentOrientationType w)). auto 7.
Qed.

(** ** What listeners receive *)

Lemma well_formed_change_event (label : string) :
  is_label label -> well_formed_event (change_event label).
Proof. intro H. exists label. split; [reflexivity | exact H]. Qed.

Lemma android_step_events (w : Android.World) (i : Android.Input) :
  android_inv w -> Forall well_formed_event (events (Android.step i w)).
Proof.
  destruct w as [[co sm acc tr cur last] [hco dr ss da ro th n]].
  unfold android_inv. simpl. intros (_ & _ & _ & Hl).
  destruct i as [o r | e | | call | | call | | | ]; android_cbv; split_ifs;
    repeat constructor;
    try (apply well_formed_change_event;
         first [ now apply android_classifier_label
               | unfold is_label; tauto ]).
Qed.

Lemma android_run_events (inputs : list Android.Input) (w : Android.World) :
  android_inv w -> Forall well_formed_event (snd (Android.run inputs w)).
Proof.
  revert w. induction inputs as [|i rest IH]; intros w Hw; simpl; [constructor|].
  apply Forall_app. split.
  - now apply android_step_events.
  - apply IH. now apply android_step_inv.
Qed.

Lemma ios_step_events (w : IOS.World) (i : IOS.Input) :
  Forall well_formed_event (events (IOS.step i w)).
Proof.
  destruct w as [[mm cur tr last] [dev io av n]].
  destruct i as [o | o | [a|] | | call | | call | | ]; ios_cbv; split_ifs;
    repeat constructor;
    try (apply well_formed_change_event; apply ios_map_label).
Qed.

Lemma ios_run_events (inputs : list IOS.Input) (w : IOS.World) :
  Forall well_formed_event (snd (IOS.run inputs w)).
Proof.
  revert w. induction inputs as [|i rest IH]; intro w; simpl; [constructor|].
  apply Forall_app. split; [apply ios_step_events | apply IH].
Qed.

(** X7 — Listeners only ever receive well-formed events.  Whatever inputs
    the plugin is driven with from a reachable state, every event it
    emits is on the topic [screenOrientationChange] and carries one of
    the four labels as its [type].  Android and iOS. *)
Theorem emitted_events_are_labelled :
  (forall (inputs : list Android.Input) (w : Android.World),
      Android.reachable w ->
      Forall well_formed_event (snd (Android.run inputs w))) /\
  (forall (inputs : list IOS.Input) (w : IOS.World),
      Forall well_formed_event (snd (IOS.run inputs w))).
Proof.
  split.
  - intros inputs w Hw. apply android_run_events.
    now apply android_reachable_inv.
  - apply ios_run_events.
Qed.

Lemma emitted_events_are_labelled_witness :
  Forall well_formed_event
    (snd (Android.run
            [Android.ConfigurationChanged Android.ORIENTATION_LANDSCAPE
               Android.ROTATION_270;
             Android.CallStartOrientationTracking bypass_call;
             Android.SensorChanged
               (Android.mkSensorEvent Android.TYPE_ACCELEROMETER 0 (-9) 1)]
            (Android.boot android_phone))).
Proof.
  apply (proj1 emitted_events_are_labelled). constructor. reflexivity.
Defined.

(** X8 — [lastNotified] moves only with an event.  Over any single input,
    either [lastNotifiedOrientation] is unchanged, or it becomes some
    label and the input emitted exactly the change event for that label.
    On Android the UI path never touches the tracker's memory: a
    configuration change leaves [lastNotifiedOrientation] and
    [currentPhysicalOrientation] as they were even when it emits. *)
Theorem lastNotified_moves_only_with_event :
  (forall (w : Android.World) (i : Android.Input),
      let r := Android.step i w in
      Android.lastNotifiedOrientation (Android.this (world r))
      = Android.lastNotifiedOrientation (Android.this w) \/
      exists label,
        Android.lastNotifiedOrientation (Android.this (world r)) = Some label /\
        events r = [change_event label]) /\
  (forall (w : IOS.World) (i : IOS.Input),
      let r := IOS.step i w in
      IOS.lastNotifiedOrientation (IOS.this (world r))
      = IOS.lastNotifiedOrientation (IOS.this w) \/
      exists label,
        IOS.lastNotifiedOrientation (IOS.this (world r)) = Some label /\
        events r = [change_event label]) /\
  (forall (w : Android.World) (o r : Z),
      let w' := world (Android.step (Android.ConfigurationChanged o r) w) in
      Android.lastNotifiedOrientation (Android.this w')
      = Android.lastNotifiedOrientation (Android.this w) /\
      Android.currentPhysicalOrientation (Android.this w')
      = Android.currentPhysicalOrientation (Android.this w)).
Proof.
  split; [|split].
  - intros w i r. subst r.
    destruct i as [o r | e | | call | | call | | | ].
    2: { destruct (Nat.eq_dec (Android.sensorListeners (Android.host w)) 0)
           as [Hn | Hn].
         - left. unfold Android.step, bind, gets. cbn [fst snd].
           rewrite Hn. reflexivity.
         - rewrite (android_step_sensorChanged w e Hn).
           destruct (android_onSensorChanged_chain w e)
             as [[He Hl] | (l & He & Hl & _)].
           + left. exact Hl.
           + right. exists l. split; assumption. }
    all: left; destruct w as [[co sm acc tr cur last] [hco dr ss da ro th n]];
      android_cbv; split_ifs; reflexivity.
  - intros w i r. subst r.
    destruct w as [[mm cur tr last] [dev io av n]].
    destruct i as [o | o | [a|] | | call | | call | | ]; ios_cbv; split_ifs;
      try (left; reflexivity);
      right; eexists; split; reflexivity.
  - intros w o r w'. subst w'.
    destruct w as [[co sm acc tr cur last] [hco dr ss da ro th n]].
    android_cbv. split_ifs; split; reflexivity.
Qed.

(** ** Deduplication across the two emission paths *)

Lemma ios_step_chain (w : IOS.World) (i : IOS.Input) :
  let r := IOS.step i w in
  (events r = [] /\
   IOS.lastNotifiedOrientation (IOS.this (world r))
   = IOS.lastNotifiedOrientation (IOS.this w)) \/
  (exists label,
      events r = [change_event label] /\
      IOS.lastNotifiedOrientation (IOS.this (world r)) = Some label /\
      Some label <> IOS.lastNotifiedOrientation (IOS.this w)).
Proof.
  intro r. subst r.
  destruct w as [[mm cur tr last] [dev io av n]].
  destruct i as [o | o | [a|] | | call | | call | | ]; ios_cbv; split_ifs;
    try (left; split; reflexivity);
    right; eexists; (split; [reflexivity|]); (split; [reflexivity|]);
    apply differs_true_neq; assumption.
Qed.

Lemma ios_run_chain (inputs : list IOS.Input) (w : IOS.World) :
  fresh_chain (IOS.lastNotifiedOrientation (IOS.this w))
    (map payload (snd (IOS.run inputs w))).
Proof.
  revert w. induction inputs as [|i rest IH]; intro w; [exact I|].
  cbn [IOS.run snd fst]. rewrite map_app.
  destruct (ios_step_chain w i) as [[He Hl] | (label & He & Hl & Hn)];
    rewrite He; cbn [map app].
  - rewrite <- Hl. apply IH.
  - split; [exact Hn|]. specialize (IH (world (IOS.step i w))).
    rewrite Hl in IH. exact IH.
Qed.

(** X9 — On iOS deduplication spans both emission paths.  The UI observer
    and the motion tracker both notify through [notifyOrientationChange],
    so for any sequence of inputs whatsoever (device-orientation
    notifications, accelerometer updates and calls, interleaved), from any
    state, no two consecutive emitted events carry the same payload, and
    the first one differs from the last payload notified before. *)
Theorem ios_deduplicates_across_paths :
  forall (inputs : list IOS.Input) (w : IOS.World),
    no_consecutive_duplicates (map payload (snd (IOS.run inputs w))) /\
    fresh_chain (IOS.lastNotifiedOrientation (IOS.this w))
      (map payload (snd (IOS.run inputs w))).
Proof.
  intros inputs w. split; [|apply ios_run_chain].
  apply (fresh_chain_no_duplicates _ _ (ios_run_chain inputs w)).
Qed.

(** X10 — On Android deduplication does not span the two paths.  The UI
    path neither reads nor writes [lastNotifiedOrientation], so after a
    configuration change to landscape (rotation 90) has been announced,
    starting tracking and tilting the phone to the same orientation
    announces landscape-primary a second time in a row. *)
Theorem android_paths_can_repeat_an_event :
  forall (w : Android.World) (e : Android.SensorEvent),
    Android.isTrackingMotion (Android.this w) = false ->
    Android.accelerometer (Android.this w) = true ->
    Android.currentOrientation (Android.this w) <> Android.ORIENTATION_LANDSCAPE ->
    Android.currentPhysicalOrientation (Android.this w) <> "landscape-primary"%string ->
    Android.lastNotifiedOrientation (Android.this w) <> Some "landscape-primary"%string ->
    Android.sensorType e = Android.TYPE_ACCELEROMETER ->
    (Android.threshold < Android.values0 e)%Q ->
    (Qabs (Android.values1 e) < Android.values0 e)%Q ->
    snd (Android.run
           [Android.ConfigurationChanged Android.ORIENTATION_LANDSCAPE
              Android.ROTATION_90;
            Android.CallStartOrientationTracking bypass_call;
            Android.SensorChanged e]
           w)
    = [change_event "landscape-primary"; change_event "landscape-primary"].
Proof.
  intros w e Ht Hacc Hco Hcur Hlast Hty Hx Hy.
  assert (Hpos : (0 < Android.values0 e)%Q) by (unfold Android.threshold in Hx; lra).
  assert (Hlabel :
            Android.determinePhysicalOrientation
              (Android.currentPhysicalOrientation (Android.this w))
              (Android.values0 e) (Android.values1 e) (Android.values2 e)
            = "landscape-primary"%string).
  { apply (android_landscape_branch _ (Android.values0 e)
             (Android.values1 e) (Android.values2 e)).
    - rewrite Qabs_pos; lra.
    - rewrite (Qabs_pos (Android.values0 e)); lra.
    - exact Hpos. }
  cbn [Android.run snd fst].
  rewrite android_step_configurationChanged.
  rewrite android_configurationChanged_result by
    (destruct w as [p h]; simpl in *; assumption).
  cbn [world events fst snd].
  set (w2 := Android.set_currentOrientation _ _).
  change (Android.step (Android.CallStartOrientationTracking bypass_call) w2)
    with (Android.discard (Android.startOrientationTracking bypass_call) w2).
  rewrite android_discard, android_startOrientationTracking_bypass.
  cbn [world events fst snd]. rewrite android_startMotionTracking_spec.
  assert (Ht2 : Android.isTrackingMotion (Android.this w2) = false)
    by (subst w2; destruct w as [p h]; exact Ht).
  assert (Hacc2 : Android.accelerometer (Android.this w2) = true)
    by (subst w2; destruct w as [p h]; exact Hacc).
  rewrite Ht2, Hacc2. cbn [orb negb fst snd].
  set (w3 := Android.set_sensorListeners _ _).
  rewrite android_step_sensorChanged
    by (subst w3; destruct w2 as [p h]; simpl; discriminate).
  assert (Hcur3 : Android.currentPhysicalOrientation (Android.this w3)
                  = Android.currentPhysicalOrientation (Android.this w))
    by (subst w3 w2; destruct w as [p h]; reflexivity).
  assert (Hlast3 : Android.lastNotifiedOrientation (Android.this w3)
                   = Android.lastNotifiedOrientation (Android.this w))
    by (subst w3 w2; destruct w as [p h]; reflexivity).
  destruct (android_onSensorChanged_spec w3 e Hty) as (_ & _ & _ & Hemit & _).
  cbv zeta in Hemit. rewrite Hcur3, Hlast3, Hlabel in Hemit.
  destruct Hemit as [He _].
  { split; [congruence|]. congruence. }
  change (world (tt, w3, @nil Event)) with w3. rewrite He.
  destruct w as [p [hco dr ss da ro th n]]. reflexivity.
Qed.

Lemma android_paths_can_repeat_an_event_witness :
  snd (Android.run
         [Android.ConfigurationChanged Android.ORIENTATION_LANDSCAPE
            Android.ROTATION_90;
          Android.CallStartOrientationTracking bypass_call;
          Android.SensorChanged
            (Android.mkSensorEvent Android.TYPE_ACCELEROMETER 9 1 0)]
         (Android.boot android_phone))
  = [change_event "landscape-primary"; change_event "landscape-primary"].
Proof.
  apply android_paths_can_repeat_an_event;
    try reflexivity; try (vm_compute; discriminate).
Defined.

(** X11 — Stopping does not reset the tracker's memory.  Stopping and
    starting tracking again leaves [currentPhysicalOrientation] (on iOS
    [currentDeviceOrientation]) and [lastNotifiedOrientation] as they
    were, so the first sample after a restart that classifies to the
    orientation held before emits no event. *)
Theorem restart_keeps_tracker_memory :
  (forall (w : Android.World),
      let w' := world (Android.startOrientationTracking bypass_call
                         (world (Android.stopOrientationTracking w))) in
      Android.currentPhysicalOrientation (Android.this w')
      = Android.currentPhysicalOrientation (Android.this w) /\
      Android.lastNotifiedOrientation (Android.this w')
      = Android.lastNotifiedOrientation (Android.this w) /\
      forall e : Android.SensorEvent,
        Android.determinePhysicalOrientation
          (Android.currentPhysicalOrientation (Android.this w))
          (Android.values0 e) (Android.values1 e) (Android.values2 e)
        = Android.currentPhysicalOrientation (Android.this w) ->
        Android.onSensorChanged e w' = (tt, w', [])) /\
  (forall (w : IOS.World),
      let w' := world (IOS.startOrientationTracking bypass_call
                         (world (IOS.stopOrientationTracking w))) in
      IOS.currentDeviceOrientation (IOS.this w')
      = IOS.currentDeviceOrientation (IOS.this w) /\
      IOS.lastNotifiedOrientation (IOS.this w')
      = IOS.lastNotifiedOrientation (IOS.this w) /\
      forall a : IOS.CMAcceleration,
        IOS.determineOrientation (IOS.currentDeviceOrientation (IOS.this w)) a
        = IOS.currentDeviceOrientation (IOS.this w) ->
        IOS.accelerometerHandler (Some a) w' = (tt, w', [])).
Proof.
  split.
  - intros w w'.
    assert (H : Android.currentPhysicalOrientation (Android.this w')
                = Android.currentPhysicalOrientation (Android.this w) /\
                Android.lastNotifiedOrientation (Android.this w')
                = Android.lastNotifiedOrientation (Android.this w)).
    { subst w'. destruct w as [[co sm acc tr cur last] [hco dr ss da ro th n]].
      android_exec. destruct tr, sm, acc; simpl; split; reflexivity. }
    destruct H as [H1 H2]. split; [exact H1|]. split; [exact H2|].
    intros e He. rewrite <- H1 in He.
    assert (Hf := android_feed_same_label [e] w' (Forall_cons _ He (Forall_nil _))).
    cbn [Android.feed] in Hf.
    destruct (Android.onSensorChanged e w') as [[[] w1] ev] eqn:E.
    unfold world, events in Hf. simpl in Hf.
    rewrite app_nil_r in Hf. now injection Hf as -> ->.
  - intros w w'.
    assert (H : IOS.currentDeviceOrientation (IOS.this w')
                = IOS.currentDeviceOrientation (IOS.this w) /\
                IOS.lastNotifiedOrientation (IOS.this w')
                = IOS.lastNotifiedOrientation (IOS.this w)).
    { subst w'. destruct w as [[mm cur tr last] [dev io av n]].
      ios_exec. destruct tr, mm, av; simpl; split; reflexivity. }
    destruct H as [H1 H2]. split; [exact H1|]. split; [exact H2|].
    intros a Ha. rewrite <- H1 in Ha.
    assert (Hf : IOS.feed [Some a] w' = (w', []))
      by (apply ios_feed_same_label; constructor; [exact Ha | constructor]).
    cbn [IOS.feed] in Hf.
    destruct (IOS.accelerometerHandler (Some a) w') as [[[] w1] ev] eqn:E.
    unfold world, events in Hf. simpl in Hf.
    rewrite app_nil_r in Hf. now injection Hf as -> ->.
Qed.

Lemma restart_keeps_tracker_memory_witness :
  Android.onSensorChanged
    (Android.mkSensorEvent Android.TYPE_ACCELEROMETER 1 9 0)
    (world (Android.startOrientationTracking bypass_call
              (world (Android.stopOrientationTracking (Android.boot android_phone)))))
  = (tt,
     world (Android.startOrientationTracking bypass_call
              (world (Android.stopOrientationTracking (Android.boot android_phone)))),
     []).
Proof.
  apply (proj2 (proj2 (proj1 restart_keeps_tracker_memory
                         (Android.boot android_phone)))).
  vm_compute. reflexivity.
Defined.

(** ** The two classifiers side by side *)

(** X12 — Up to units and sign the two classifiers agree wherever x does
    not exceed the threshold without dominating.  Feeding the Android
    classifier the iOS sample scaled by 10 (so that the thresholds 5.0 and
    0.5 coincide) and negated gives the label the iOS classifier and its
    mapping give, provided [|x| <= 0.5] or [|y| < |x|]. *)
Theorem classifiers_agree_up_to_sign :
  forall (prev : IOS.Device.t) (a : IOS.CMAcceleration),
    (Qabs (IOS.x a) <= IOS.threshold)%Q \/ (Qabs (IOS.y a) < Qabs (IOS.x a))%Q ->
    Android.determinePhysicalOrientation (IOS.mapDeviceOrientationToString prev)
      (- (10 * IOS.x a)) (- (10 * IOS.y a)) (- (10 * IOS.z a))
    = IOS.mapDeviceOrientationToString (IOS.determineOrientation prev a).
Proof.
  intros prev [x y z] H.
  unfold Android.determinePhysicalOrientation, IOS.determineOrientation,
    Android.threshold, IOS.threshold in *.
  cbn [IOS.x IOS.y IOS.z] in *.
  qabs x; qabs y; qabs (- (10 * x))%Q; qabs (- (10 * y))%Q;
    try (exfalso; lra);
    destruct (Qgtb (Qabs (- (10 * x))) 5) eqn:E1;
    destruct (Qgtb (Qabs (- (10 * x))) (Qabs (- (10 * y)))) eqn:E2;
    destruct (Qgtb (- (10 * x)) 0) eqn:E3;
    destruct (Qgtb (Qabs (- (10 * y))) 5) eqn:E4;
    destruct (Qgtb (- (10 * y)) 0) eqn:E5;
    destruct (Qltb x (- (1 # 2))) eqn:E6;
    destruct (Qgtb x (1 # 2)) eqn:E7;
    destruct (Qltb y (- (1 # 2))) eqn:E8;
    destruct (Qgtb y (1 # 2)) eqn:E9;
    simpl; try reflexivity; exfalso; qprops; destruct H; lra.
Qed.

Lemma classifiers_agree_up_to_sign_witness :
  Android.determinePhysicalOrientation "portrait-primary"
    (- (10 * (4 # 5))) (- (10 * (3 # 5))) (- (10 * 0))
  = IOS.mapDeviceOrientationToString
      (IOS.determineOrientation IOS.Device.portrait
         (IOS.mkAcceleration (4 # 5) (3 # 5) 0)).
Proof.
  apply (classifiers_agree_up_to_sign IOS.Device.portrait
           (IOS.mkAcceleration (4 # 5) (3 # 5) 0)).
  right. vm_compute. reflexivity.
Defined.

(** ** Orientation queries and tables *)

(** X13 — When is iOS "locked".  The two iOS mapping tables agree under
    UIKit's pairing of device and interface orientations (device left is
    interface right).  So while tracking is active, [isOrientationLocked]
    reports [locked] false when the interface orientation is the one
    paired with the tracker's device orientation, and [locked] true when
    it is any other known interface orientation. *)
Theorem ios_locked_iff_interface_not_paired :
  (forall d : IOS.Device.t,
      IOS.mapDeviceOrientationToString d
      = IOS.mapInterfaceOrientationToString (interface_of_device d)) /\
  (forall (w : IOS.World) (i : IOS.Interface.t),
      IOS.isTrackingWithMotion (IOS.this w) = true ->
      IOS.Device.isValidInterfaceOrientation
        (IOS.currentDeviceOrientation (IOS.this w)) = true ->
      IOS.interfaceOrientation (IOS.host w) = Some i ->
      i <> IOS.Interface.unknown ->
      exists o locked,
        value (IOS.isOrientationLocked w) = Resolve o /\
        get "locked" o = Some (JSBool locked) /\
        (locked = false <->
         i = interface_of_device (IOS.currentDeviceOrientation (IOS.this w)))).
Proof.
  split.
  - intros []; reflexivity.
  - intros w i Ht Hv Hi Hu.
    destruct w as [[mm cur tr last] [dev io av n]]. simpl in *. subst tr io.
    ios_exec. eexists. eexists. split; [reflexivity|]. split; [reflexivity|].
    destruct cur; try discriminate Hv; destruct i; simpl;
      try (now elim Hu); split; intro H; try reflexivity; try discriminate H.
Qed.

Lemma ios_locked_iff_interface_not_paired_witness :
  exists o locked,
    value (IOS.isOrientationLocked
             (IOS.mkWorld
                (IOS.mkPlugin true IOS.Device.landscapeLeft true None)
                (IOS.mkHost IOS.Device.landscapeLeft
                   (Some IOS.Interface.portrait) true 1)))
    = Resolve o /\
    get "locked" o = Some (JSBool locked) /\
    (locked = false <->
     IOS.Interface.portrait = interface_of_device IOS.Device.landscapeLeft).
Proof.
  apply (proj2 ios_locked_iff_interface_not_paired
           (IOS.mkWorld
              (IOS.mkPlugin true IOS.Device.landscapeLeft true None)
              (IOS.mkHost IOS.Device.landscapeLeft
                 (Some IOS.Interface.portrait) true 1))
           IOS.Interface.portrait);
    try reflexivity.
  discriminate.
Defined.

(** X14 — [orientation()] is a pure query that always answers with a
    label.  On both platforms it resolves with [{type: label}], changes
    nothing and emits nothing, and the label is the [uiOrientation] that
    [isOrientationLocked] reports.  On Android the label is a portrait one
    exactly when the configuration orientation is ORIENTATION_PORTRAIT (an
    undefined configuration reads as landscape); on iOS a missing window
    scene or an unknown interface orientation reads as portrait-primary. *)
Theorem orientation_query :
  (forall w : Android.World,
      exists ui,
        is_label ui /\
        Android.orientation w = (Resolve [("type"%string, JSString ui)], w, []) /\
        (exists o, value (Android.isOrientationLocked w) = Resolve o /\
                   get "uiOrientation" o = Some (JSString ui)) /\
        (is_portrait ui <->
         Android.configurationOrientation (Android.host w)
         = Android.ORIENTATION_PORTRAIT)) /\
  (forall w : IOS.World,
      exists ui,
        is_label ui /\
        IOS.orientation w = (Resolve [("type"%string, JSString ui)], w, []) /\
        (exists o, value (IOS.isOrientationLocked w) = Resolve o /\
                   get "uiOrientation" o = Some (JSString ui)) /\
        (IOS.interfaceOrientation (IOS.host w) = None \/
         IOS.interfaceOrientation (IOS.host w) = Some IOS.Interface.unknown ->
         ui = "portrait-primary"%string)).
Proof.
  split.
  - intros [[co sm acc tr cur last] [hco dr ss da ro th n]].
    android_exec. eexists. split; [apply (android_ui_label hco dr)|].
    split; [reflexivity|]. split.
    + destruct tr; simpl; eexists; split; reflexivity.
    + unfold is_portrait.
      destruct (hco =? Android.ORIENTATION_PORTRAIT)%Z eqn:E.
      * apply Z.eqb_eq in E. destruct (_ =? _)%Z; tauto.
      * apply Z.eqb_neq in E.
        destruct (_ =? _)%Z; split; try tauto; intros [H | H]; discriminate H.
  - intros [[mm cur tr last] [dev io av n]].
    ios_exec. eexists. split; [|split; [reflexivity|split]].
    + unfold is_label. destruct io as [[]|]; simpl; tauto.
    + destruct tr; simpl; eexists; split; reflexivity.
    + intros [-> | ->]; reflexivity.
Qed.

Ltac lock_type_cases H :=
  unfold is_lock_type, is_label in H;
  repeat match type of H with _ \/ _ => destruct H as [H | H] end.

(** X15 — The lock-type tables.  On Android the eight lock types map to
    eight different requested-orientation constants, and every other
    string is treated like "any" (UNSPECIFIED).  On iOS
    [getOrientationMask] knows exactly the eight lock types (nil
    otherwise), and three of them, "natural", "portrait" and
    "portrait-primary", share the portrait mask. *)
Theorem lock_type_tables :
  (forall s1 s2 : string,
      is_lock_type s1 -> is_lock_type s2 ->
      Android.getOrientationConstant s1 = Android.getOrientationConstant s2 ->
      s1 = s2) /\
  (forall s : string,
      ~ is_lock_type s ->
      Android.getOrientationConstant s = Android.SCREEN_ORIENTATION_UNSPECIFIED) /\
  (forall s : string, IOS.getOrientationMask s <> None <-> is_lock_type s) /\
  (forall s : string,
      IOS.getOrientationMask s = Some IOS.Mask.portrait <->
      s = "natural"%string \/ s = "portrait"%string \/ s = "portrait-primary"%string).
Proof.
  split; [|split; [|split]].
  - intros s1 s2 H1 H2 H.
    lock_type_cases H1; lock_type_cases H2; subst;
      first [ reflexivity | vm_compute in H; discriminate H ].
  - intros s Hn. unfold Android.getOrientationConstant.
    repeat match goal with
    | |- context [String.eqb s ?t] =>
        let E := fresh "E" in
        destruct (String.eqb s t) eqn:E;
        [ apply String.eqb_eq in E; exfalso; apply Hn;
          unfold is_lock_type, is_label; tauto | ]
    end.
    reflexivity.
  - intro s. split.
    + unfold IOS.getOrientationMask.
      repeat match goal with
      | |- context [String.eqb s ?t] =>
          let E := fresh "E" in
          destruct (String.eqb s t) eqn:E;
          [ intros _; apply String.eqb_eq in E;
            unfold is_lock_type, is_label; tauto | ]
      end.
      simpl. intro Hm. now elim Hm.
    + intro H. lock_type_cases H; subst; vm_compute; discriminate.
  - intro s. split.
    + unfold IOS.getOrientationMask.
      repeat match goal with
      | |- context [String.eqb s ?t] =>
          let E := fresh "E" in
          destruct (String.eqb s t) eqn:E;
          [ apply String.eqb_eq in E; simpl; intro Hm;
            first [ discriminate Hm | tauto ] | ]
      end.
      simpl. intro Hm. discriminate Hm.
    + intros [-> | [-> | ->]]; reflexivity.
Qed.

Lemma lock_type_tables_witness :
  Android.getOrientationConstant "sideways"
  = Android.SCREEN_ORIENTATION_UNSPECIFIED.
Proof.
  apply (proj1 (proj2 lock_type_tables)).
  intro H. lock_type_cases H; discriminate H.
Defined.

(** X16 — Tracking starts only with the bypass option and a sensor, and
    the call never says so.  On a freshly loaded plugin
    [startOrientationTracking] always resolves and emits nothing; tracking
    is active afterwards exactly when [bypassOrientationLock] is true and
    the host has an accelerometer (on Android: a sensor service with a
    default accelerometer).  When it is not, the world is unchanged on
    Android, and on iOS nothing is subscribed. *)
Theorem tracking_needs_bypass_and_sensor :
  (forall (h : Android.Host) (call : JSObject),
      let r := Android.startOrientationTracking call (Android.boot h) in
      value r = Resolve [] /\ events r = [] /\
      Android.isTrackingMotion (Android.this (world r))
      = getBoolean call "bypassOrientationLock" false
        && Android.sensorService h && Android.defaultAccelerometer h /\
      (Android.isTrackingMotion (Android.this (world r)) = false ->
       world r = Android.boot h)) /\
  (forall (h : IOS.Host) (call : JSObject),
      let r := IOS.startOrientationTracking call (IOS.boot h) in
      value r = Resolve [] /\ events r = [] /\
      IOS.isTrackingWithMotion (IOS.this (world r))
      = getBoolean call "bypassOrientationLock" false
        && IOS.isAccelerometerAvailable h /\
      (IOS.isTrackingWithMotion (IOS.this (world r)) = false ->
       IOS.accelerometerUpdates (IOS.host (world r)) = IOS.accelerometerUpdates h)).
Proof.
  split.
  - intros [co dr ss da ro th n] call r. subst r.
    unfold Android.startOrientationTracking.
    destruct (getBoolean call "bypassOrientationLock" false), ss, da;
      android_exec; repeat split; discriminate.
  - intros [dev io av n] call r. subst r.
    unfold IOS.startOrientationTracking.
    destruct (getBoolean call "bypassOrientationLock" false), av;
      ios_exec; repeat split; discriminate.
Qed.

(** ** The web implementation *)

Lemma prefix_refl (s : string) : String.prefix s s = true.
Proof.
  induction s as [|c s IH]; simpl; [reflexivity|].
  destruct (Ascii.ascii_dec c c) as [_ | Hc]; [exact IH | now elim Hc].
Qed.

Lemma includes_refl (s : string) : Web.includes s s = true.
Proof.
  destruct s as [|c s]; [reflexivity|].
  cbn [Web.includes]. now rewrite prefix_refl.
Qed.

(** X17 — The web orientation mapping.  [mapOrientationType] always
    returns one of the four labels and returns each of the four labels
    unchanged; the [=== ] test in each of its conditions never decides
    anything, because a string always includes itself. *)
Theorem web_mapOrientationType_labels :
  (forall s : string, is_label (Web.mapOrientationType s)) /\
  (forall s : string, is_label s -> Web.mapOrientationType s = s) /\
  (forall s t : string,
      String.eqb s t = true -> Web.includes s t = true).
Proof.
  split; [|split].
  - intro s. unfold Web.mapOrientationType, is_label.
    repeat match goal with
    | |- context [if ?b then _ else _] => destruct b
    end; tauto.
  - intros s [-> | [-> | [-> | ->]]]; reflexivity.
  - intros s t H. apply String.eqb_eq in H. subst t. apply includes_refl.
Qed.

Lemma web_mapOrientationType_labels_witness :
  Web.mapOrientationType "landscape-secondary" = "landscape-secondary"%string.
Proof.
  apply (proj1 (proj2 web_mapOrientationType_labels)).
  unfold is_label. tauto.
Defined.

(** X18 — On the web nothing is ever "locked".  The tracking calls resolve
    without changing anything, and [isOrientationLocked] either rejects
    with "Screen Orientation API not available" (no screen-orientation
    object) or resolves with [locked] false, no [physicalOrientation] and
    the mapped screen orientation as [uiOrientation]; it never changes the
    page state or emits. *)
Theorem web_never_locked :
  (forall (w : Web.World) (call : JSObject),
      Web.startOrientationTracking call w = (Resolve [], w, []) /\
      Web.stopOrientationTracking w = (Resolve [], w, [])) /\
  (forall w : Web.World,
      world (Web.isOrientationLocked w) = w /\
      events (Web.isOrientationLocked w) = [] /\
      match Web.screenOrientation w with
      | None =>
          value (Web.isOrientationLocked w)
          = Reject "Screen Orientation API not available"
      | Some so =>
          exists o,
            value (Web.isOrientationLocked w) = Resolve o /\
            get "locked" o = Some (JSBool false) /\
            has "physicalOrientation" o = false /\
            get "uiOrientation" o
            = Some (JSString (Web.mapOrientationType (Web.type so))) /\
            is_label (Web.mapOrientationType (Web.type so))
      end).
Proof.
  split.
  - intros w call. split; reflexivity.
  - intros [[so|] l]; unfold Web.isOrientationLocked, Web.orientation;
      exec_core.
    + split; [reflexivity|]. split; [reflexivity|].
      eexists. split; [reflexivity|]. unfold has. simpl.
      repeat split.
      unfold Web.mapOrientationType, is_label.
      repeat match goal with
      | |- context [if ?b then _ else _] => destruct b
      end; tauto.
    + repeat split.
Qed.

Lemma orientation_query_witness :
  exists ui,
    is_label ui /\
    IOS.orientation
      (IOS.mkWorld IOS.newPlugin (IOS.mkHost IOS.Device.faceUp None true 0))
    = (Resolve [("type"%string, JSString ui)],
       IOS.mkWorld IOS.newPlugin (IOS.mkHost IOS.Device.faceUp None true 0), []) /\
    ui = "portrait-primary"%string.
Proof.
  destruct (proj2 orientation_query
              (IOS.mkWorld IOS.newPlugin (IOS.mkHost IOS.Device.faceUp None true 0)))
    as (ui & Hl & Ho & _ & Hd).
  exists ui. split; [exact Hl|]. split; [exact Ho|].
  apply Hd. left. reflexivity.
Defined.

Lemma tracking_needs_bypass_and_sensor_witness :
  world (Android.startOrientationTracking bypass_call
           (Android.boot android_phone_without_accelerometer))
  = Android.boot android_phone_without_accelerometer.
Proof.
  apply (proj2 (proj2 (proj2
           (proj1 tracking_needs_bypass_and_sensor
              android_phone_without_accelerometer bypass_call)))).
  reflexivity.
Defined.
